(** * blivet: device actions and the multipath member format

    A shallow embedding of [blivet/deviceaction.py] and of
    [blivet/formats/multipath.py].

    Python objects live in a store: devices are referenced by their object id,
    formats by a heap reference, so that two holders of the same format (a
    device and the snapshot kept by an action) see each other's writes.
    Methods that can raise run in a small state-and-exception monad. *)

From Stdlib Require Import ZArith.
From stdpp Require Import gmap strings list.

Local Open Scope string_scope.
Local Open Scope Z_scope.

(** ** Exceptions *)

(** The exceptions the modelled code raises itself, and [BackendError] for
    what a device or format back end may raise. *)
Inductive Exn : Type :=
| ValueError (msg : string)
| AttributeError
| MultipathMemberError (msg : string)
| BackendError (msg : string).

(** ** Formats and devices *)

(** The attributes of a [DeviceFormat] object that the actions read or write,
    as plain fields: reading one returns what was last assigned.  [fmt_type]
    is [None] for the blank format. *)
Record DeviceFormat : Type := mkFormat {
  fmt_type : option string;
  fmt_exists : bool;
  fmt_resizable : bool;
  fmt_currentSize : Z;
  fmt_minSize : Z;
  fmt_maxSize : Z;
  fmt_targetSize : Z;
  fmt_uuid : option string;
  fmt_partedFlag : option Z;
  fmt_partedSystem : option string
}.

(** [isinstance(device, PartitionDevice)] and
    [isinstance(device, LVMLogicalVolumeDevice)], with the attributes that
    only those classes have. *)
Inductive DeviceClass : Type :=
| StorageDevice
| PartitionDevice (disk : nat) (number : Z)
| LVMLogicalVolumeDevice (vg : nat) (singlePV : bool).

Record Device : Type := mkDevice {
  dev_class : DeviceClass;
  dev_exists : bool;
  dev_resizable : bool;
  dev_currentSize : Z;
  dev_minSize : Z;
  dev_maxSize : Z;
  dev_size : Z;
  dev_targetSize : Z;
  dev_format : option nat;
  dev_path : string;
  dev_sysfsPath : string;
  dev_deviceLinks : list string
}.

Definition blank_format : DeviceFormat :=
  mkFormat None false false 0 0 0 0 None None None.

Definition blank_device : Device :=
  mkDevice StorageDevice false false 0 0 0 0 0 None "" "" [].

#[global] Instance DeviceFormat_inhabited : Inhabited DeviceFormat :=
  populate blank_format.
#[global] Instance Device_inhabited : Inhabited Device :=
  populate blank_device.

Definition with_dev_targetSize (d : Device) (v : Z) : Device :=
  mkDevice (dev_class d) (dev_exists d) (dev_resizable d) (dev_currentSize d)
           (dev_minSize d) (dev_maxSize d) (dev_size d) v (dev_format d)
           (dev_path d) (dev_sysfsPath d) (dev_deviceLinks d).

Definition with_dev_format (d : Device) (v : option nat) : Device :=
  mkDevice (dev_class d) (dev_exists d) (dev_resizable d) (dev_currentSize d)
           (dev_minSize d) (dev_maxSize d) (dev_size d) (dev_targetSize d) v
           (dev_path d) (dev_sysfsPath d) (dev_deviceLinks d).

Definition with_dev_deviceLinks (d : Device) (v : list string) : Device :=
  mkDevice (dev_class d) (dev_exists d) (dev_resizable d) (dev_currentSize d)
           (dev_minSize d) (dev_maxSize d) (dev_size d) (dev_targetSize d)
           (dev_format d) (dev_path d) (dev_sysfsPath d) v.

Definition with_fmt_targetSize (f : DeviceFormat) (v : Z) : DeviceFormat :=
  mkFormat (fmt_type f) (fmt_exists f) (fmt_resizable f) (fmt_currentSize f)
           (fmt_minSize f) (fmt_maxSize f) v (fmt_uuid f) (fmt_partedFlag f)
           (fmt_partedSystem f).

Definition with_fmt_uuid (f : DeviceFormat) (v : option string) : DeviceFormat :=
  mkFormat (fmt_type f) (fmt_exists f) (fmt_resizable f) (fmt_currentSize f)
           (fmt_minSize f) (fmt_maxSize f) (fmt_targetSize f) v
           (fmt_partedFlag f) (fmt_partedSystem f).

(** ** The store *)

(** Modelled from the spec: [util.ObjectID], defined outside the two modules
    embedded here, gives every device and every action an [id] that is
    "strictly increasing, unique, assigned at creation and never reused".
    Devices are therefore keyed by their id, and [next_id] is the counter the
    next [ObjectID.__init__] draws from.  [log] collects what is sent to the
    [logging] module: a level and a message. *)
Record Model : Type := mkModel {
  devices : gmap nat Device;
  formats : gmap nat DeviceFormat;
  next_id : nat;
  log : list (string * string)
}.

Definition device_of (m : Model) (dev : nat) : Device := devices m !!! dev.
Definition format_of (m : Model) (ref : nat) : DeviceFormat := formats m !!! ref.

Definition set_device (dev : nat) (d : Device) (m : Model) : Model :=
  mkModel (<[dev := d]> (devices m)) (formats m) (next_id m) (log m).

Definition set_format (ref : nat) (f : DeviceFormat) (m : Model) : Model :=
  mkModel (devices m) (<[ref := f]> (formats m)) (next_id m) (log m).

Definition add_log (level msg : string) (m : Model) : Model :=
  mkModel (devices m) (formats m) (next_id m) (log m ++ [(level, msg)]).

(** ** State and exceptions *)

(** A computation over a store of type [S] that returns an [A] or raises. *)
Definition St (S A : Type) : Type := S -> (Exn + A) * S.

Definition ret {S A} (x : A) : St S A := fun s => (inr x, s).
Definition raise {S A} (e : Exn) : St S A := fun s => (inl e, s).
Definition bind {S A B} (c : St S A) (k : A -> St S B) : St S B :=
  fun s => match c s with
           | (inl e, s') => (inl e, s')
           | (inr x, s') => k x s'
           end.
Definition get {S} : St S S := fun s => (inr s, s).
Definition modify {S} (f : S -> S) : St S unit := fun s => (inr tt, f s).

Abbreviation M := (St Model).

Notation "x <- c ;; k" := (bind c (fun x => k))
  (at level 100, c at next level, right associativity).
Notation "c ;;; k" := (bind c (fun _ => k))
  (at level 100, right associativity).

(** [obj.attr] where [obj] may be [None]. *)
Definition deref {S A} (o : option A) : St S A :=
  match o with
  | Some x => ret x
  | None => raise AttributeError
  end.

(** ** Actions *)

Definition ACTION_TYPE_NONE : Z := 0.
Definition ACTION_TYPE_DESTROY : Z := 1000.
Definition ACTION_TYPE_RESIZE : Z := 500.
Definition ACTION_TYPE_CREATE : Z := 100.

Definition ACTION_OBJECT_NONE : Z := 0.
Definition ACTION_OBJECT_FORMAT : Z := 1.
Definition ACTION_OBJECT_DEVICE : Z := 2.

Definition RESIZE_SHRINK : Z := 88.
Definition RESIZE_GROW : Z := 89.

(** One constructor per concrete class, carrying the instance attributes the
    class sets in [__init__]: [id] and [device] for all of them, [dir] and the
    saved size for the resizes, [origFormat] for the format create and
    destroy. *)
Inductive Action : Type :=
| ActionCreateDevice (id device : nat)
| ActionDestroyDevice (id device : nat)
| ActionResizeDevice (id device : nat) (dir : Z) (origsize : Z)
| ActionCreateFormat (id device : nat) (origFormat : option nat)
| ActionDestroyFormat (id device : nat) (origFormat : option nat)
| ActionResizeFormat (id device : nat) (dir : Z) (origSize : Z).

Definition a_id (a : Action) : nat :=
  match a with
  | ActionCreateDevice i _ | ActionDestroyDevice i _
  | ActionResizeDevice i _ _ _ | ActionCreateFormat i _ _
  | ActionDestroyFormat i _ _ | ActionResizeFormat i _ _ _ => i
  end.

Definition a_device (a : Action) : nat :=
  match a with
  | ActionCreateDevice _ d | ActionDestroyDevice _ d
  | ActionResizeDevice _ d _ _ | ActionCreateFormat _ d _
  | ActionDestroyFormat _ d _ | ActionResizeFormat _ d _ _ => d
  end.

Definition a_type (a : Action) : Z :=
  match a with
  | ActionCreateDevice _ _ | ActionCreateFormat _ _ _ => ACTION_TYPE_CREATE
  | ActionDestroyDevice _ _ | ActionDestroyFormat _ _ _ => ACTION_TYPE_DESTROY
  | ActionResizeDevice _ _ _ _ | ActionResizeFormat _ _ _ _ => ACTION_TYPE_RESIZE
  end.

Definition a_obj (a : Action) : Z :=
  match a with
  | ActionCreateDevice _ _ | ActionDestroyDevice _ _
  | ActionResizeDevice _ _ _ _ => ACTION_OBJECT_DEVICE
  | ActionCreateFormat _ _ _ | ActionDestroyFormat _ _ _
  | ActionResizeFormat _ _ _ _ => ACTION_OBJECT_FORMAT
  end.

(** [self.dir]; only the resize classes set it. *)
Definition a_dir (a : Action) : option Z :=
  match a with
  | ActionResizeDevice _ _ d _ | ActionResizeFormat _ _ d _ => Some d
  | _ => None
  end.

Definition isDestroy (a : Action) : bool := a_type a =? ACTION_TYPE_DESTROY.
Definition isCreate (a : Action) : bool := a_type a =? ACTION_TYPE_CREATE.
Definition isResize (a : Action) : bool := a_type a =? ACTION_TYPE_RESIZE.
Definition isShrink (a : Action) : bool :=
  (a_type a =? ACTION_TYPE_RESIZE) && bool_decide (a_dir a = Some RESIZE_SHRINK).
Definition isGrow (a : Action) : bool :=
  (a_type a =? ACTION_TYPE_RESIZE) && bool_decide (a_dir a = Some RESIZE_GROW).
Definition isDevice (a : Action) : bool := a_obj a =? ACTION_OBJECT_DEVICE.
Definition isFormat (a : Action) : bool := a_obj a =? ACTION_OBJECT_FORMAT.

(** The [format] property: [self.device.format], overridden by
    [ActionDestroyFormat] to return [self.origFormat]. *)
Definition a_format (m : Model) (a : Action) : option nat :=
  match a with
  | ActionDestroyFormat _ _ origFormat => origFormat
  | _ => dev_format (device_of m (a_device a))
  end.

(** ** Construction and cancellation *)

(** [util.ObjectID.__init__]: draw the next id. *)
Definition ObjectID_init : M nat :=
  fun m => (inr (next_id m),
            mkModel (devices m) (formats m) (S (next_id m)) (log m)).

(** [DeviceAction.__init__].  The [isinstance(device, StorageDevice)] test
    cannot fail here: a device reference is all that can be passed. *)
Definition DeviceAction_init (device : nat) : M nat := ObjectID_init.

(** Modelled from the spec: [formats.getFormat], defined outside the two
    modules embedded here.  [getFormat(None)] returns a new blank format
    object, the explicit "no format" placeholder. *)
Definition getFormat_None : M nat :=
  fun m => let ref := fresh (dom (formats m)) in
           (inr ref, set_format ref blank_format m).

(** [device.targetSize = v] *)
Definition set_dev_targetSize (device : nat) (v : Z) : M unit :=
  modify (fun m =>
            set_device device (with_dev_targetSize (device_of m device) v) m).

(** [device.format = v] *)
Definition set_dev_format (device : nat) (v : option nat) : M unit :=
  modify (fun m =>
            set_device device (with_dev_format (device_of m device) v) m).

(** [device.format.targetSize = v] on a format whose setter stores [v] as it
    is given; [set_dev_format_targetSize_via] below has the setter of the
    format class as a parameter. *)
Definition set_dev_format_targetSize (device : nat) (v : Z) : M unit :=
  m <- get ;;
  ref <- deref (dev_format (device_of m device)) ;;
  modify (fun m => set_format ref (with_fmt_targetSize (format_of m ref) v) m).

Definition ActionCreateDevice_init (device : nat) : M Action :=
  m <- get ;;
  if dev_exists (device_of m device)
  then raise (ValueError "device already exists")
  else
    id <- DeviceAction_init device ;;
    ret (ActionCreateDevice id device).

Definition ActionDestroyDevice_init (device : nat) : M Action :=
  id <- DeviceAction_init device ;;
  ret (ActionDestroyDevice id device).

Definition ActionResizeDevice_init (device : nat) (newsize : Z) : M Action :=
  m <- get ;;
  let d := device_of m device in
  if negb (dev_resizable d) then raise (ValueError "device is not resizable")
  else if dev_currentSize d =? newsize
  then raise (ValueError "new size same as old size")
  else if newsize <? dev_minSize d
  then raise (ValueError "new size is too small")
  else if newsize >? dev_maxSize d
  then raise (ValueError "new size is too large")
  else
    id <- DeviceAction_init device ;;
    let dir := if newsize >? dev_currentSize d
               then RESIZE_GROW else RESIZE_SHRINK in
    let origsize := if dev_targetSize d >? 0
                    then dev_targetSize d else dev_size d in
    set_dev_targetSize device newsize ;;;
    ret (ActionResizeDevice id device dir origsize).

(** [if format:] holds exactly when a format object is passed. *)
Definition ActionCreateFormat_init (device : nat) (format : option nat)
  : M Action :=
  id <- DeviceAction_init device ;;
  match format with
  | Some f =>
      m <- get ;;
      let origFormat := dev_format (device_of m device) in
      set_dev_format device (Some f) ;;;
      ret (ActionCreateFormat id device origFormat)
  | None =>
      ref <- getFormat_None ;;
      ret (ActionCreateFormat id device (Some ref))
  end.

Definition ActionDestroyFormat_init (device : nat) : M Action :=
  id <- DeviceAction_init device ;;
  m <- get ;;
  let origFormat := dev_format (device_of m device) in
  set_dev_format device None ;;;
  ret (ActionDestroyFormat id device origFormat).

(** [ActionResizeFormat.__init__] on a format whose setter stores the new
    target size as it is given. *)
Definition ActionResizeFormat_init (device : nat) (newsize : Z) : M Action :=
  m <- get ;;
  ref <- deref (dev_format (device_of m device)) ;;
  let f := format_of m ref in
  if negb (fmt_resizable f) then raise (ValueError "format is not resizable")
  else if fmt_currentSize f =? newsize
  then raise (ValueError "new size same as old size")
  else
    id <- DeviceAction_init device ;;
    let dir := if newsize >? fmt_currentSize f
               then RESIZE_GROW else RESIZE_SHRINK in
    let origSize := fmt_targetSize f in
    set_dev_format_targetSize device newsize ;;;
    ret (ActionResizeFormat id device dir origSize).

(** The [targetSize] setter of a format class: from the format and the value
    assigned, the format after the assignment or the exception raised. *)
Definition TargetSizeSetter : Type := DeviceFormat -> Z -> Exn + DeviceFormat.

(** The setter that stores what it is given. *)
Definition store_targetSize : TargetSizeSetter :=
  fun f v => inr (with_fmt_targetSize f v).

(** Modelled from the spec: the [targetSize] setter of the format classes,
    which are defined outside the two modules embedded here.  The docstring
    of [DeviceAction] leaves it to the device and format classes to "verify
    that the requested modifications are reasonable and raise an exception if
    not", and the spec has a format resize whose size is below the format's
    minimum or above its maximum fail at construction with a validation
    error.  So the setter raises [ValueError] for such a size and stores any
    other. *)
Definition format_set_targetSize : TargetSizeSetter :=
  fun f newsize =>
    if (newsize <? fmt_minSize f) || (newsize >? fmt_maxSize f)
    then inl (ValueError "invalid target size request")
    else inr (with_fmt_targetSize f newsize).

(** [device.format.targetSize = v], the assignment going through the setter
    of the format. *)
Definition set_dev_format_targetSize_via (setter : TargetSizeSetter)
  (device : nat) (v : Z) : M unit :=
  m <- get ;;
  ref <- deref (dev_format (device_of m device)) ;;
  match setter (format_of m ref) v with
  | inl e => raise e
  | inr f => modify (set_format ref f)
  end.

(** [ActionResizeFormat.__init__], the assignment of its last line going
    through the setter of the format. *)
Definition ActionResizeFormat_init_via (setter : TargetSizeSetter)
  (device : nat) (newsize : Z) : M Action :=
  m <- get ;;
  ref <- deref (dev_format (device_of m device)) ;;
  let f := format_of m ref in
  if negb (fmt_resizable f) then raise (ValueError "format is not resizable")
  else if fmt_currentSize f =? newsize
  then raise (ValueError "new size same as old size")
  else
    id <- DeviceAction_init device ;;
    let dir := if newsize >? fmt_currentSize f
               then RESIZE_GROW else RESIZE_SHRINK in
    let origSize := fmt_targetSize f in
    set_dev_format_targetSize_via setter device newsize ;;;
    ret (ActionResizeFormat id device dir origSize).

(** [cancel]; the device create and destroy inherit the base method, which
    does nothing. *)
Definition cancel (a : Action) : M unit :=
  match a with
  | ActionCreateDevice _ _ | ActionDestroyDevice _ _ => ret tt
  | ActionResizeDevice _ device _ origsize => set_dev_targetSize device origsize
  | ActionCreateFormat _ device origFormat => set_dev_format device origFormat
  | ActionDestroyFormat _ device origFormat => set_dev_format device origFormat
  | ActionResizeFormat _ device _ origSize =>
      set_dev_format_targetSize device origSize
  end.

(** ** [requires] and [obsoletes] *)

(** Python's [and], [or] and [not] over operands that may raise: the right
    operand is evaluated only when the left one does not decide. *)
Definition py_and (x y : Exn + bool) : Exn + bool :=
  match x with inr true => y | _ => x end.
Definition py_or (x y : Exn + bool) : Exn + bool :=
  match x with inr false => y | _ => x end.
Definition py_not (x : Exn + bool) : Exn + bool :=
  match x with inr b => inr (negb b) | inl e => inl e end.

Infix "&&!" := py_and (at level 40, left associativity).
Infix "||!" := py_or (at level 50, left associativity).

(** [fmt.exists] for a format reference that may be [None]. *)
Definition format_exists (m : Model) (fmt : option nat) : Exn + bool :=
  match fmt with
  | Some ref => inr (fmt_exists (format_of m ref))
  | None => inl AttributeError
  end.

(** Both devices are partitions and [self.device.disk == action.device.disk];
    the result is the pair of partition numbers. *)
Definition partitions_on_same_disk (d1 d2 : Device) : option (Z * Z) :=
  match dev_class d1, dev_class d2 with
  | PartitionDevice disk1 n1, PartitionDevice disk2 n2 =>
      if (disk1 =? disk2)%nat then Some (n1, n2) else None
  | _, _ => None
  end.

(** Both devices are logical volumes and [self.device.vg == action.device.vg];
    the result is the pair of [singlePV] attributes. *)
Definition lvs_in_same_vg (d1 d2 : Device) : option (bool * bool) :=
  match dev_class d1, dev_class d2 with
  | LVMLogicalVolumeDevice vg1 s1, LVMLogicalVolumeDevice vg2 s2 =>
      if (vg1 =? vg2)%nat then Some (s1, s2) else None
  | _, _ => None
  end.

Section Predicates.

(** [StorageDevice.dependsOn] belongs to the device classes, which are not
    modelled: [dependsOn m d dep] is [d.dependsOn(dep)] in store [m]. *)
Variable dependsOn : Model -> nat -> nat -> bool.

Definition ActionCreateDevice_requires (m : Model) (self action : Action)
  : bool :=
  let sd := device_of m (a_device self) in
  let ad := device_of m (a_device action) in
  if dependsOn m (a_device self) (a_device action) then true
  else if isCreate action && isDevice action
          && bool_decide (is_Some (partitions_on_same_disk sd ad))
  then
    match partitions_on_same_disk sd ad with
    | Some (selfNum, otherNum) => selfNum >? otherNum
    | None => false
    end
  else if isCreate action && isDevice action
          && match lvs_in_same_vg sd ad with
             | Some (selfSingle, otherSingle) => otherSingle && negb selfSingle
             | None => false
             end
  then true
  else false.

Definition ActionDestroyDevice_requires (m : Model) (self action : Action)
  : bool :=
  let sd := device_of m (a_device self) in
  let ad := device_of m (a_device action) in
  if dependsOn m (a_device action) (a_device self) && isDestroy action
  then true
  else if isDestroy action && isDevice action
          && bool_decide (is_Some (partitions_on_same_disk sd ad))
  then
    match partitions_on_same_disk sd ad with
    | Some (selfNum, otherNum) => selfNum <? otherNum
    | None => false
    end
  else if isDestroy action && isFormat action
          && (a_device action =? a_device self)%nat
  then true
  else false.

Definition ActionResizeDevice_requires (m : Model) (self action : Action)
  : bool :=
  if isResize action then
    if (a_device self =? a_device action)%nat
       && bool_decide (a_dir self = a_dir action)
       && isFormat action && isShrink self
    then true
    else if isGrow action && dependsOn m (a_device self) (a_device action)
    then true
    else if isShrink action && dependsOn m (a_device action) (a_device self)
    then true
    else false
  else false.

Definition ActionCreateFormat_requires (m : Model) (self action : Action)
  : bool :=
  (dependsOn m (a_device self) (a_device action)
   && negb (isDestroy action && isDevice action))
  || (isDevice action && (isCreate action || isResize action)
      && (a_device self =? a_device action)%nat).

Definition ActionDestroyFormat_requires (m : Model) (self action : Action)
  : bool :=
  dependsOn m (a_device action) (a_device self) && isDestroy action.

Definition ActionResizeFormat_requires (m : Model) (self action : Action)
  : bool :=
  if isResize action then
    if (a_device self =? a_device action)%nat
       && bool_decide (a_dir self = a_dir action)
       && isDevice action && isGrow self
    then true
    else if isShrink action && dependsOn m (a_device action) (a_device self)
    then true
    else if isGrow action && dependsOn m (a_device self) (a_device action)
    then true
    else false
  else false.

(** [self.requires(action)], dispatched on the class of [self]. *)
Definition requires (m : Model) (self action : Action) : bool :=
  match self with
  | ActionCreateDevice _ _ => ActionCreateDevice_requires m self action
  | ActionDestroyDevice _ _ => ActionDestroyDevice_requires m self action
  | ActionResizeDevice _ _ _ _ => ActionResizeDevice_requires m self action
  | ActionCreateFormat _ _ _ => ActionCreateFormat_requires m self action
  | ActionDestroyFormat _ _ _ => ActionDestroyFormat_requires m self action
  | ActionResizeFormat _ _ _ _ => ActionResizeFormat_requires m self action
  end.

End Predicates.

(** [DeviceAction.obsoletes], inherited by the device create and by both
    resizes. *)
Definition DeviceAction_obsoletes (self action : Action) : bool :=
  (a_device self =? a_device action)%nat
  && (a_type self =? a_type action)
  && (a_obj self =? a_obj action)
  && (a_id action <? a_id self)%nat.

Definition ActionDestroyDevice_obsoletes (m : Model) (self action : Action)
  : bool :=
  if (a_device action =? a_device self)%nat then
    if (a_id action <=? a_id self)%nat
       && negb (dev_exists (device_of m (a_device self)))
    then true
    else if (a_id action <? a_id self)%nat
            && dev_exists (device_of m (a_device self))
            && negb (isDestroy action && isFormat action)
    then true
    else false
  else false.

Definition ActionCreateFormat_obsoletes (m : Model) (self action : Action)
  : Exn + bool :=
  inr (a_device self =? a_device action)%nat
  &&! inr (a_obj self =? a_obj action)
  &&! py_not (inr (isDestroy action) &&! format_exists m (a_format m action))
  &&! inr (a_id action <? a_id self)%nat.

Definition ActionDestroyFormat_obsoletes (m : Model) (self action : Action)
  : Exn + bool :=
  inr (a_device self =? a_device action)%nat
  &&! inr (a_obj self =? a_obj action)
  &&! (inr (a_id action <? a_id self)%nat
       ||! (inr (a_id self =? a_id action)%nat
            &&! py_not (format_exists m (a_format m self))))
  &&! py_not (format_exists m (a_format m action)
              &&! py_not (format_exists m (a_format m self))).

(** [self.obsoletes(action)], dispatched on the class of [self]. *)
Definition obsoletes (m : Model) (self action : Action) : Exn + bool :=
  match self with
  | ActionDestroyDevice _ _ => inr (ActionDestroyDevice_obsoletes m self action)
  | ActionCreateFormat _ _ _ => ActionCreateFormat_obsoletes m self action
  | ActionDestroyFormat _ _ _ => ActionDestroyFormat_obsoletes m self action
  | _ => inr (DeviceAction_obsoletes self action)
  end.

(** ** [ActionCreateFormat.execute] *)

(** What [udev_get_block_device] returns when it finds the device: the
    entries read by [udev_device_get_uuid] and [udev_device_get_symlinks]. *)
Record UdevInfo : Type := mkUdevInfo {
  udev_device_get_uuid : option string;
  udev_device_get_symlinks : list string
}.

Definition set_fmt_uuid (ref : nat) (v : option string) : M unit :=
  modify (fun m => set_format ref (with_fmt_uuid (format_of m ref) v) m).

Definition set_dev_deviceLinks (device : nat) (v : list string) : M unit :=
  modify (fun m =>
            set_device device (with_dev_deviceLinks (device_of m device) v) m).

Section Execute.

(** The collaborators of [execute]: device and format back ends, parted and
    udev.  Each may change the store and may raise. *)
Variable device_setup : nat -> M unit.
Variable partitionFlag_keys : list Z.
Variable PARTITION_LBA : Z.
Variable unsetFlag : nat -> Z -> M unit.
Variable setFlag : nat -> Z -> M unit.
Variable set_partedPartition_system : nat -> string -> M unit.
Variable commitToDisk : nat -> M unit.
Variable format_create : nat -> nat -> M unit.
Variable udev_settle : M unit.
Variable updateSysfsPath : nat -> M unit.
Variable udev_get_block_device : string -> M (option UdevInfo).
(** [str(self.device)] *)
Variable device_str : Model -> nat -> string.

(** [self.device.format], as an attribute chain that stops at [None]. *)
Definition current_format (device : nat) : M nat :=
  m <- get ;; deref (dev_format (device_of m device)).

(** The loop over [partitionFlag.keys()]. *)
Fixpoint unset_flags (device : nat) (flags : list Z) : M unit :=
  match flags with
  | [] => ret tt
  | flag :: rest =>
      ref <- current_format device ;;
      m <- get ;;
      if (flag =? PARTITION_LBA)
         || bool_decide (Some flag = fmt_partedFlag (format_of m ref))
      then unset_flags device rest
      else unsetFlag device flag ;;; unset_flags device rest
  end.

(** Lines 446 to 469: everything up to and including [updateSysfsPath]. *)
Definition create_on_disk (device : nat) : M unit :=
  _ <- current_format device ;;
  device_setup device ;;;
  m <- get ;;
  match dev_class (device_of m device) with
  | PartitionDevice _ _ =>
      unset_flags device partitionFlag_keys ;;;
      ref <- current_format device ;;
      m <- get ;;
      match fmt_partedFlag (format_of m ref) with
      | Some flag => setFlag device flag
      | None => ret tt
      end ;;;
      ref <- current_format device ;;
      m <- get ;;
      match fmt_partedSystem (format_of m ref) with
      | Some system => set_partedPartition_system device system
      | None => ret tt
      end ;;;
      m <- get ;;
      match dev_class (device_of m device) with
      | PartitionDevice disk _ => commitToDisk disk
      | _ => raise AttributeError
      end
  | _ => ret tt
  end ;;;
  ref <- current_format device ;;
  format_create ref device ;;;
  udev_settle ;;;
  updateSysfsPath device.

(** Lines 470 to 480: look the device up and record what udev knows. *)
Definition record_udev_info (device : nat) : M unit :=
  m <- get ;;
  info <- udev_get_block_device (dev_sysfsPath (device_of m device)) ;;
  match info with
  | Some info =>
      ref <- current_format device ;;
      m <- get ;;
      (if negb (bool_decide (fmt_type (format_of m ref) = Some "btrfs"))
       then set_fmt_uuid ref (udev_device_get_uuid info)
       else ret tt) ;;;
      set_dev_deviceLinks device (udev_device_get_symlinks info)
  | None =>
      ref <- current_format device ;;
      m <- get ;;
      if negb (bool_decide (fmt_type (format_of m ref) = Some "tmpfs"))
      then modify (fun m =>
                     add_log "error"
                       ("udev lookup failed for device: " +:+ device_str m device)
                       m)
      else ret tt
  end.

Definition ActionCreateFormat_execute (self : Action) : M unit :=
  create_on_disk (a_device self) ;;;
  record_udev_info (a_device self).

End Execute.

(** ** The multipath member format *)

Module Multipath.

(** Positional and keyword arguments of a call. *)
Inductive PyValue : Type :=
| PyNone
| PyBool (b : bool)
| PyInt (z : Z)
| PyStr (s : string).

(** A [MultipathMember] object: the [DeviceFormat] attributes it inherits
    and its own [_member]. *)
Record MultipathMember : Type := mkMember {
  mp_format : DeviceFormat;
  mp_device : option string;
  mp_status : bool;
  _member : option nat
}.

(** The object the method is called on, and the log. *)
Record State : Type := mkState {
  self_ : MultipathMember;
  mp_log : list (string * string)
}.

Section Methods.

(** The text [storage_log.log_method_call] renders from the name of the
    method and the keyword arguments [device], [type] and [status]. *)
Variable render_call :
  string -> option string -> option string -> bool -> string.

Definition log_method_call (method : string) : St State unit :=
  modify (fun s =>
            mkState (self_ s)
                    (mp_log s ++
                       [("debug",
                         render_call method (mp_device (self_ s))
                           (fmt_type (mp_format (self_ s)))
                           (mp_status (self_ s)))])).

Definition create (args : list PyValue) (kwargs : list (string * PyValue))
  : St State unit :=
  log_method_call "create" ;;;
  raise (MultipathMemberError "creation of multipath members is non-sense").

Definition destroy (args : list PyValue) (kwargs : list (string * PyValue))
  : St State unit :=
  log_method_call "destroy" ;;;
  raise (MultipathMemberError
           "destruction of multipath members is non-sense").

End Methods.

End Multipath.

(** ** Strings for types, objects and directions *)

(** The three dictionaries, as their items. *)
Definition action_strings : list (Z * string) :=
  [(ACTION_TYPE_NONE, "None"); (ACTION_TYPE_DESTROY, "Destroy");
   (ACTION_TYPE_RESIZE, "Resize"); (ACTION_TYPE_CREATE, "Create")].

Definition object_strings : list (Z * string) :=
  [(ACTION_OBJECT_NONE, "None"); (ACTION_OBJECT_FORMAT, "Format");
   (ACTION_OBJECT_DEVICE, "Device")].

Definition resize_strings : list (Z * string) :=
  [(RESIZE_SHRINK, "Shrink"); (RESIZE_GROW, "Grow")].

(** [str.lower()] on a byte string: the letters A to Z move to a to z. *)
Definition lower_ascii (c : Ascii.ascii) : Ascii.ascii :=
  let n := Ascii.nat_of_ascii c in
  if (65 <=? n)%nat && (n <=? 90)%nat then Ascii.ascii_of_nat (n + 32) else c.

Fixpoint lower (s : string) : string :=
  match s with
  | EmptyString => EmptyString
  | String c rest => String (lower_ascii c) (lower rest)
  end.

(** The loop [for (k,v) in d.items(): if v.lower() == type_string.lower():
    return k]; [None] when the loop ends without a match. *)
Fixpoint first_key (items : list (Z * string)) (type_string : string)
  : option Z :=
  match items with
  | [] => None
  | (k, v) :: rest =>
      if bool_decide (lower v = lower type_string) then Some k
      else first_key rest type_string
  end.

Definition resize_type_from_string (type_string : option string) : option Z :=
  match type_string with
  | None => None
  | Some s => first_key resize_strings s
  end.

Definition action_type_from_string (type_string : option string) : option Z :=
  match type_string with
  | None => None
  | Some s =>
      match first_key action_strings s with
      | Some k => Some k
      | None => resize_type_from_string (Some s)
      end
  end.

Definition action_object_from_string (type_string : option string)
  : option Z :=
  match type_string with
  | None => None
  | Some s => first_key object_strings s
  end.

(** [d[k]]; [None] stands for [KeyError]. *)
Fixpoint dict_get (items : list (Z * string)) (k : Z) : option string :=
  match items with
  | [] => None
  | (k', v) :: rest => if k' =? k then Some v else dict_get rest k
  end.

Definition typeString (a : Action) : option string :=
  dict_get action_strings (a_type a).

Definition objectString (a : Action) : option string :=
  dict_get object_strings (a_obj a).

Definition resizeString (a : Action) : option string :=
  if isResize a then
    match a_dir a with
    | Some dir => dict_get resize_strings dir
    | None => None
    end
  else Some "".

(** ** The other [execute] methods *)

(** [try: c except Exception: pass]: what [c] did to the store stays. *)
Definition try_pass {S} (c : St S unit) : St S unit :=
  fun s => match c s with
           | (inl _, s') => (inr tt, s')
           | (inr x, s') => (inr x, s')
           end.

Section OtherExecutes.

(** Device and format back ends.  [partedDevice] and [device_status] read the
    properties of those names, as truth values. *)
Variable device_create : nat -> M unit.
Variable device_destroy : nat -> M unit.
Variable partedDevice : nat -> M bool.
Variable removeFromCache : nat -> M unit.
Variable device_resize : nat -> M unit.
Variable device_status : nat -> M bool.
Variable device_setup_orig : nat -> M unit.
Variable device_teardown : nat -> M unit.
Variable format_destroy : nat -> M unit.
Variable format_doResize : nat -> M unit.
Variable udev_settle : M unit.

Definition ActionCreateDevice_execute (self : Action) : M unit :=
  device_create (a_device self).

Definition ActionDestroyDevice_execute (self : Action) : M unit :=
  device_destroy (a_device self) ;;;
  cached <- partedDevice (a_device self) ;;
  if cached : bool then try_pass (removeFromCache (a_device self)) else ret tt.

Definition ActionResizeDevice_execute (self : Action) : M unit :=
  device_resize (a_device self).

Definition ActionDestroyFormat_execute (self : Action) : M unit :=
  status <- device_status (a_device self) ;;
  device_setup_orig (a_device self) ;;;
  m <- get ;;
  ref <- deref (a_format m self) ;;
  format_destroy ref ;;;
  udev_settle ;;;
  if negb status then device_teardown (a_device self) else ret tt.

Definition ActionResizeFormat_execute (self : Action) : M unit :=
  device_setup_orig (a_device self) ;;;
  ref <- current_format (a_device self) ;;
  format_doResize ref.

End OtherExecutes.

(** ** A concrete store

    A disk (device 1) with an existing partition (device 2, number 1) that
    holds an existing ext4 (format 10), and a partition still to be created
    (device 3, number 2) with a new ext4 (format 11). *)

Definition example_ext4 (exists_ : bool) : DeviceFormat :=
  mkFormat (Some "ext4") exists_ true 100 50 200 100 None None None.

Definition example_disk : Device :=
  mkDevice StorageDevice true false 1000 1000 1000 1000 0 None
           "/dev/sda" "/sys/block/sda" [].

Definition example_partition (number : Z) (exists_ : bool) (fmt : nat)
  (name : string) : Device :=
  mkDevice (PartitionDevice 1 number) exists_ true 100 50 200 100 0 (Some fmt)
           ("/dev/" +:+ name) ("/sys/block/sda/" +:+ name) [].

Definition example_model : Model :=
  mkModel
    (<[1%nat := example_disk]>
       (<[2%nat := example_partition 1 true 10 "sda1"]>
          (<[3%nat := example_partition 2 false 11 "sda2"]> ∅)))
    (<[10%nat := example_ext4 true]> (<[11%nat := example_ext4 false]> ∅))
    20 [].

(** A partition depends on its disk, and nothing else depends on anything. *)
Definition example_dependsOn (m : Model) (d dep : nat) : bool :=
  match dev_class (device_of m d) with
  | PartitionDevice disk _ => (disk =? dep)%nat
  | _ => false
  end.

(** Collaborators for the example store: back ends that succeed and change
    nothing, and a udev that knows the devices listed in [known]. *)
Definition example_noop {A} (_ : A) : M unit := ret tt.

Definition example_info : UdevInfo :=
  mkUdevInfo (Some "6f1c3a52-0b7e-4a59-9d0e-2f5a1c7d9e10")
             ["/dev/disk/by-label/root"].

Definition example_udev (known : list string) (sysfsPath : string)
  : M (option UdevInfo) :=
  ret (if bool_decide (sysfsPath ∈ known) then Some example_info else None).

Definition example_device_str (m : Model) (device : nat) : string :=
  dev_path (device_of m device).

(** [ActionCreateFormat.execute] with the example collaborators. *)
Definition example_execute (known : list string) (self : Action) : M unit :=
  ActionCreateFormat_execute example_noop [1; 2; 3] 2
    (fun _ => example_noop) (fun _ => example_noop) (fun _ => example_noop)
    example_noop (fun _ => example_noop) (ret tt) example_noop
    (example_udev known) example_device_str self.

(** A second store: a volume group (device 4) with two logical volumes still
    to be created, device 5 spread over the physical volumes and device 6 on
    a single one. *)
Definition example_lv (singlePV : bool) (name : string) : Device :=
  mkDevice (LVMLogicalVolumeDevice 4 singlePV) false true 100 50 200 100 0
           None ("/dev/mapper/" +:+ name) ("/sys/block/" +:+ name) [].

Definition example_lvm_model : Model :=
  mkModel
    (<[4%nat := example_disk]>
       (<[5%nat := example_lv false "vg-root"]>
          (<[6%nat := example_lv true "vg-boot"]> ∅)))
    ∅ 20 [].

(** * Properties *)

(** ** Reading the store after a write *)

Lemma device_of_set_device_eq m dev d : device_of (set_device dev d m) dev = d.
Proof. unfold device_of, set_device; simpl. apply lookup_total_insert_eq. Qed.

Lemma device_of_set_device_ne m dev dev' d :
  dev <> dev' -> device_of (set_device dev d m) dev' = device_of m dev'.
Proof.
  intros Hne. unfold device_of, set_device; simpl.
  by apply lookup_total_insert_ne.
Qed.


Lemma format_of_set_format_eq m ref f : format_of (set_format ref f m) ref = f.
Proof. unfold format_of, set_format; simpl. apply lookup_total_insert_eq. Qed.

Lemma format_of_set_format_ne m ref ref' f :
  ref <> ref' -> format_of (set_format ref f m) ref' = format_of m ref'.
Proof.
  intros Hne. unfold format_of, set_format; simpl.
  by apply lookup_total_insert_ne.
Qed.

Lemma format_of_set_device m dev d ref :
  format_of (set_device dev d m) ref = format_of m ref.
Proof. reflexivity. Qed.

(** Drawing an id touches neither the devices nor the formats. *)
Lemma ObjectID_init_spec m :
  ObjectID_init m
  = (inr (next_id m), mkModel (devices m) (formats m) (S (next_id m)) (log m)).
Proof. reflexivity. Qed.

(** ** Validation in the resize constructors *)

Lemma ActionResizeDevice_init_rejects m device newsize :
  newsize = dev_currentSize (device_of m device)
  \/ newsize < dev_minSize (device_of m device)
  \/ newsize > dev_maxSize (device_of m device) ->
  exists msg,
    ActionResizeDevice_init device newsize m = (inl (ValueError msg), m).
Proof.
  intros Hbad. unfold ActionResizeDevice_init, bind, get, raise.
  destruct (dev_resizable (device_of m device)); simpl; [| eauto].
  destruct (Z.eqb_spec (dev_currentSize (device_of m device)) newsize);
    [eauto |].
  destruct (Z.ltb_spec newsize (dev_minSize (device_of m device))); [eauto |].
  destruct (Z.gtb_spec newsize (dev_maxSize (device_of m device))); [eauto |].
  lia.
Qed.

Lemma ActionResizeFormat_init_rejects_same m device ref newsize :
  dev_format (device_of m device) = Some ref ->
  newsize = fmt_currentSize (format_of m ref) ->
  exists msg,
    ActionResizeFormat_init device newsize m = (inl (ValueError msg), m).
Proof.
  intros Href ->. unfold ActionResizeFormat_init, bind, get, raise.
  rewrite Href; simpl.
  destruct (fmt_resizable (format_of m ref)); simpl; [| eauto].
  rewrite Z.eqb_refl. eauto.
Qed.

(** With the storing setter the constructor is [ActionResizeFormat_init]. *)
Lemma ActionResizeFormat_init_via_store device newsize m :
  ActionResizeFormat_init_via store_targetSize device newsize m
  = ActionResizeFormat_init device newsize m.
Proof.
  unfold ActionResizeFormat_init_via, ActionResizeFormat_init, bind, get.
  destruct (dev_format (device_of m device)) as [ref |] eqn:Href;
    simpl; [| reflexivity].
  destruct (negb _); [reflexivity |].
  destruct (_ =? _); [reflexivity |].
  unfold DeviceAction_init, set_dev_format_targetSize_via,
    set_dev_format_targetSize, store_targetSize, bind, get, modify, ret.
  simpl. unfold device_of. simpl. fold (device_of m device).
  rewrite Href. reflexivity.
Qed.

(** The tests of the constructor itself, whatever the setter: a format that
    is not resizable and a size equal to the current size raise [ValueError]
    before anything is written or drawn. *)
Lemma ActionResizeFormat_init_via_own_tests setter m device ref newsize :
  dev_format (device_of m device) = Some ref ->
  fmt_resizable (format_of m ref) = false
  \/ newsize = fmt_currentSize (format_of m ref) ->
  exists msg,
    ActionResizeFormat_init_via setter device newsize m
    = (inl (ValueError msg), m).
Proof.
  intros Href Hbad. unfold ActionResizeFormat_init_via, bind, get, raise.
  rewrite Href; simpl.
  destruct (fmt_resizable (format_of m ref)); simpl; [| eauto].
  destruct Hbad as [Hres | ->]; [discriminate |].
  rewrite Z.eqb_refl. eauto.
Qed.

(** Past its own tests the constructor draws its id and assigns the size: an
    exception of the setter is the constructor's, no action is returned, and
    no device and no format is written. *)
Lemma ActionResizeFormat_init_via_setter_raises setter m device ref newsize e :
  dev_format (device_of m device) = Some ref ->
  fmt_resizable (format_of m ref) = true ->
  newsize <> fmt_currentSize (format_of m ref) ->
  setter (format_of m ref) newsize = inl e ->
  ActionResizeFormat_init_via setter device newsize m
  = (inl e, mkModel (devices m) (formats m) (S (next_id m)) (log m)).
Proof.
  intros Href Hres Hne Hset.
  unfold ActionResizeFormat_init_via, bind, get, raise.
  rewrite Href; simpl. rewrite Hres; simpl.
  destruct (Z.eqb_spec (fmt_currentSize (format_of m ref)) newsize);
    [congruence |].
  unfold DeviceAction_init, set_dev_format_targetSize_via, bind, get, raise.
  simpl. unfold device_of at 1. simpl. fold (device_of m device).
  rewrite Href; simpl.
  unfold format_of at 1. simpl. fold (format_of m ref).
  rewrite Hset. reflexivity.
Qed.

Lemma format_set_targetSize_out_of_bounds f newsize :
  newsize < fmt_minSize f \/ newsize > fmt_maxSize f ->
  exists msg, format_set_targetSize f newsize = inl (ValueError msg).
Proof.
  intros Hbad. unfold format_set_targetSize.
  destruct (Z.ltb_spec newsize (fmt_minSize f)); simpl; [eauto |].
  destruct (Z.gtb_spec newsize (fmt_maxSize f)); [eauto | lia].
Qed.

(** C1.  [ActionResizeDevice] raises [ValueError], returning no action and
    leaving the store as it was, when the new size equals the device's current
    size, is below its minimum or is above its maximum.  [ActionResizeFormat]
    raises [ValueError], returning no action and writing to no device and no
    format, when the new size equals the format's current size, is below its
    minimum or is above its maximum: the first by the constructor's own test,
    which holds for every setter and leaves the whole store as it was, the
    other two by the setter of the format, reached after the constructor has
    drawn its id. *)
Theorem resize_rejected_at_construction m device newsize :
  (newsize = dev_currentSize (device_of m device)
   \/ newsize < dev_minSize (device_of m device)
   \/ newsize > dev_maxSize (device_of m device) ->
   exists msg,
     ActionResizeDevice_init device newsize m = (inl (ValueError msg), m))
  /\ (forall ref,
        dev_format (device_of m device) = Some ref ->
        newsize = fmt_currentSize (format_of m ref)
        \/ newsize < fmt_minSize (format_of m ref)
        \/ newsize > fmt_maxSize (format_of m ref) ->
        exists msg m',
          ActionResizeFormat_init_via format_set_targetSize device newsize m
          = (inl (ValueError msg), m')
          /\ devices m' = devices m
          /\ formats m' = formats m
          /\ log m' = log m)
  /\ (forall setter ref,
        dev_format (device_of m device) = Some ref ->
        newsize = fmt_currentSize (format_of m ref) ->
        exists msg,
          ActionResizeFormat_init_via setter device newsize m
          = (inl (ValueError msg), m)).
Proof.
  split; [apply ActionResizeDevice_init_rejects |]. split.
  - intros ref Href Hbad.
    destruct (fmt_resizable (format_of m ref)) eqn:Hres.
    + destruct (Z.eq_dec newsize (fmt_currentSize (format_of m ref)))
        as [Heq | Hne].
      * destruct (ActionResizeFormat_init_via_own_tests format_set_targetSize
                    m device ref newsize Href) as [msg Hmsg]; [by right |].
        exists msg, m. by rewrite Hmsg.
      * destruct (format_set_targetSize_out_of_bounds (format_of m ref)
                    newsize) as [msg Hmsg]; [by destruct Hbad |].
        eexists msg, _. split.
        { by apply ActionResizeFormat_init_via_setter_raises with ref. }
        done.
    + destruct (ActionResizeFormat_init_via_own_tests format_set_targetSize
                  m device ref newsize Href) as [msg Hmsg]; [by left |].
      exists msg, m. by rewrite Hmsg.
  - intros setter ref Href Heq.
    apply ActionResizeFormat_init_via_own_tests with ref; [done | by right].
Qed.

(** At the example store: partition 2 cannot be resized to its current size,
    100, and its ext4, whose minimum is 50, cannot be resized to 10. *)
Lemma resize_rejected_at_construction_witness :
  (exists msg,
     ActionResizeDevice_init 2 100 example_model
     = (inl (ValueError msg), example_model))
  /\ (exists msg m',
        ActionResizeFormat_init_via format_set_targetSize 2 10 example_model
        = (inl (ValueError msg), m')
        /\ formats m' = formats example_model).
Proof.
  split.
  - destruct (resize_rejected_at_construction example_model 2 100)
      as [Hd _].
    apply Hd. left. reflexivity.
  - destruct (resize_rejected_at_construction example_model 2 10)
      as (_ & Hf & _).
    destruct (Hf 10%nat) as (msg & m' & Hinit & _ & Hfmt & _);
      [reflexivity | right; left; vm_compute; reflexivity |].
    exists msg, m'. split; [exact Hinit | exact Hfmt].
Defined.

(** ** Construction followed by [cancel] *)

Lemma ActionResizeDevice_init_cancel m device newsize a m1 :
  ActionResizeDevice_init device newsize m = (inr a, m1) ->
  exists m2,
    cancel a m1 = (inr tt, m2)
    /\ dev_targetSize (device_of m2 device)
       = if dev_targetSize (device_of m device) >? 0
         then dev_targetSize (device_of m device)
         else dev_size (device_of m device).
Proof.
  unfold ActionResizeDevice_init, bind, get, raise.
  destruct (negb _); [discriminate |].
  destruct (_ =? _); [discriminate |].
  destruct (_ <? _); [discriminate |].
  destruct (newsize >? dev_maxSize _); [discriminate |].
  unfold DeviceAction_init, set_dev_targetSize, modify, ret; simpl.
  intros [= <- <-]. simpl. unfold set_dev_targetSize, modify.
  eexists. split; [reflexivity |].
  rewrite device_of_set_device_eq. reflexivity.
Qed.







(** ** [obsoletes] *)

Ltac reflect_nat :=
  repeat match goal with
    | |- context [(?x =? ?y)%nat] => destruct (Nat.eqb_spec x y)
    | |- context [(?x <? ?y)%nat] => destruct (Nat.ltb_spec x y)
    | |- context [(?x <=? ?y)%nat] => destruct (Nat.leb_spec x y)
    end.

(** The class tests, read off the constructors. *)
Lemma isDestroy_isFormat_iff b :
  isDestroy b && isFormat b = true
  <-> exists i d o, b = ActionDestroyFormat i d o.
Proof.
  split.
  - destruct b; try discriminate. eauto.
  - intros (i & d & o & ->). reflexivity.
Qed.

Lemma isFormat_iff b :
  isFormat b = true
  <-> (exists i d o, b = ActionCreateFormat i d o)
      \/ (exists i d o, b = ActionDestroyFormat i d o)
      \/ (exists i d dir o, b = ActionResizeFormat i d dir o).
Proof.
  split.
  - destruct b; try discriminate; eauto 10.
  - intros [(i & d & o & ->) | [(i & d & o & ->) | (i & d & dir & o & ->)]];
      reflexivity.
Qed.

(** C3.  Let [a] be an [ActionDestroyDevice] on [device].  It never raises.
    For [b] on the same device: if the device does not exist, [a] obsoletes
    [b] exactly when [b]'s id is at most [a]'s, so [a] obsoletes itself; if
    the device exists, [a] obsoletes [b] exactly when [b]'s id is strictly
    lower and [b] is not an [ActionDestroyFormat].  For [b] on another device
    the answer is [False]. *)
Theorem destroy_device_obsoletes m id device b :
  let a := ActionDestroyDevice id device in
  (exists r, obsoletes m a b = inr r)
  /\ (a_device b = device ->
      dev_exists (device_of m device) = false ->
      (obsoletes m a b = inr true <-> (a_id b <= id)%nat)
      /\ obsoletes m a a = inr true)
  /\ (a_device b = device ->
      dev_exists (device_of m device) = true ->
      (obsoletes m a b = inr true
       <-> (a_id b < id)%nat
           /\ ~ (exists i d o, b = ActionDestroyFormat i d o)))
  /\ (a_device b <> device -> obsoletes m a b = inr false).
Proof.
  simpl. unfold ActionDestroyDevice_obsoletes. simpl.
  split; [eauto |]. split; [| split].
  - intros -> ->. rewrite Nat.eqb_refl. simpl.
    split.
    + reflect_nat; simpl; split; (done || lia).
    + reflect_nat; (done || lia).
  - intros -> ->. rewrite Nat.eqb_refl. simpl.
    rewrite <- isDestroy_isFormat_iff.
    destruct (isDestroy b && isFormat b); reflect_nat; simpl;
      split; try done; try lia; intros []; try done; try lia.
  - intros Hne.
    destruct (Nat.eqb_spec (a_device b) device); [done | reflexivity].
Qed.

Lemma destroy_device_obsoletes_witness :
  obsoletes example_model (ActionDestroyDevice 22 3) (ActionCreateDevice 21 3)
  = inr true
  /\ obsoletes example_model (ActionDestroyDevice 22 2)
       (ActionDestroyFormat 21 2 (Some 10%nat))
     = inr false
  /\ obsoletes example_model (ActionDestroyDevice 22 2) (ActionCreateDevice 21 3)
     = inr false.
Proof.
  split; [| split].
  - destruct (destroy_device_obsoletes example_model 22 3
                (ActionCreateDevice 21 3)) as (_ & Hno & _).
    destruct Hno as [Hiff _]; [reflexivity | reflexivity |].
    apply Hiff. simpl. lia.
  - destruct (destroy_device_obsoletes example_model 22 2
                (ActionDestroyFormat 21 2 (Some 10%nat)))
      as ([r Hr] & _ & Hyes & _).
    specialize (Hyes eq_refl eq_refl).
    destruct r; [| exact Hr].
    apply Hyes in Hr. destruct Hr as [_ Hnot].
    exfalso. apply Hnot. eauto.
  - destruct (destroy_device_obsoletes example_model 22 2
                (ActionCreateDevice 21 3)) as (_ & _ & _ & Hother).
    apply Hother. simpl. lia.
Defined.


(** The disk of the example store holds no format, so the format destroy
    constructed on it saves [None]; so does the second of two format destroys
    in a row on partition 2. *)
Lemma destroy_format_saves_none :
  fst (ActionDestroyFormat_init 1 example_model)
  = inr (ActionDestroyFormat 20 1 None)
  /\ fst (ActionDestroyFormat_init 2
            (snd (ActionDestroyFormat_init 2 example_model)))
     = inr (ActionDestroyFormat 21 2 None).
Proof. split; reflexivity. Qed.


(** ** [ActionDestroyFormat.obsoletes] *)

(** What the method computes for a format action [b] on the same device, when
    both [a.format] and [b.format] are format objects. *)
Lemma ActionDestroyFormat_obsoletes_spec m id device ra b rb :
  isFormat b = true ->
  a_device b = device ->
  a_format m b = Some rb ->
  obsoletes m (ActionDestroyFormat id device (Some ra)) b
  = inr (((a_id b <? id)%nat
          || ((id =? a_id b)%nat && negb (fmt_exists (format_of m ra))))
         && negb (fmt_exists (format_of m rb)
                  && negb (fmt_exists (format_of m ra)))).
Proof.
  intros Hf <- Hb. unfold isFormat in Hf. apply Z.eqb_eq in Hf.
  unfold obsoletes, ActionDestroyFormat_obsoletes.
  cbn [a_device a_id a_obj a_format].
  rewrite Nat.eqb_refl, Hf, Hb. simpl.
  destruct (a_id b <? id)%nat, (id =? a_id b)%nat,
    (fmt_exists (format_of m ra)), (fmt_exists (format_of m rb));
    reflexivity.
Qed.

(** Between format destroys the method does what its docstring says: [a]
    obsoletes itself exactly when its snapshot does not exist, and, for a
    format destroy [b] with a lower id on the same device, [a] obsoletes [b]
    unless [b]'s snapshot exists and [a]'s does not. *)
Lemma ActionDestroyFormat_obsoletes_destroy m id device ra i rb :
  let a := ActionDestroyFormat id device (Some ra) in
  (obsoletes m a a = inr (negb (fmt_exists (format_of m ra))))
  /\ ((i < id)%nat ->
      obsoletes m a (ActionDestroyFormat i device (Some rb))
      = inr (negb (fmt_exists (format_of m rb)
                   && negb (fmt_exists (format_of m ra))))).
Proof.
  intros a. subst a. split.
  - rewrite (ActionDestroyFormat_obsoletes_spec m id device ra _ ra);
      try reflexivity.
    simpl. rewrite Nat.ltb_irrefl, Nat.eqb_refl.
    by destruct (fmt_exists (format_of m ra)).
  - intros Hlt.
    rewrite (ActionDestroyFormat_obsoletes_spec m id device ra _ rb);
      try reflexivity.
    simpl. apply Nat.ltb_lt in Hlt. rewrite Hlt. reflexivity.
Qed.

(** C4 says that an [ActionDestroyFormat] obsoletes every format action with
    a lower id on its device, a format destroy of an existing format apart.
    The method does not: the test on [action.format.exists] is made for every
    [action], and for one that is not a format destroy that is the device's
    current format.  In the example store partition 2 holds an ext4 that
    exists.  A destroy (id 22) whose snapshot is the ext4 that does not exist
    leaves an older create (id 21) on that partition in place, and an older
    resize too. *)
Lemma destroy_format_spares_older_create :
  let a := ActionDestroyFormat 22 2 (Some 11%nat) in
  format_exists example_model (a_format example_model a) = inr false
  /\ obsoletes example_model a (ActionCreateFormat 21 2 None) = inr false
  /\ obsoletes example_model a (ActionResizeFormat 21 2 RESIZE_GROW 100)
     = inr false.
Proof. vm_compute. done. Qed.

(** ** [requires] *)

Ltac destruct_dependsOn dependsOn :=
  repeat match goal with
    | |- context [dependsOn ?m ?d ?dep] => destruct (dependsOn m d dep) eqn:?
    end.

(** C6.  An [ActionResizeDevice] requires [b] exactly when [b] is a resize and
    either [b] resizes the format of the same device in the same direction and
    the device resize is a shrink, or [b] grows a device that this device
    depends on, or [b] shrinks a device that depends on this device.  An
    [ActionResizeFormat] requires [b] exactly when [b] is a resize and either
    [b] resizes the same device in the same direction and the format resize is
    a grow, or [b] shrinks a device that depends on this device, or [b] grows
    a device that this device depends on. *)
Theorem resize_requires dependsOn m b id device dir orig :
  (requires dependsOn m (ActionResizeDevice id device dir orig) b = true
   <-> isResize b = true
       /\ ((isFormat b = true /\ a_device b = device
            /\ a_dir b = Some dir /\ dir = RESIZE_SHRINK)
           \/ (isGrow b = true /\ dependsOn m device (a_device b) = true)
           \/ (isShrink b = true /\ dependsOn m (a_device b) device = true)))
  /\ (requires dependsOn m (ActionResizeFormat id device dir orig) b = true
      <-> isResize b = true
          /\ ((isDevice b = true /\ a_device b = device
               /\ a_dir b = Some dir /\ dir = RESIZE_GROW)
              \/ (isShrink b = true /\ dependsOn m (a_device b) device = true)
              \/ (isGrow b = true /\ dependsOn m device (a_device b) = true))).
Proof.
  split.
  - simpl. unfold ActionResizeDevice_requires.
    destruct (isResize b) eqn:Hres; [| intuition discriminate].
    cbn [a_device a_dir]. unfold isShrink at 1. cbn [a_type a_dir].
    change (ACTION_TYPE_RESIZE =? ACTION_TYPE_RESIZE) with true.
    destruct (Nat.eqb_spec device (a_device b)) as [<- | Hdev];
      repeat case_bool_decide;
      destruct (isFormat b), (isGrow b), (isShrink b);
      destruct_dependsOn dependsOn;
      simpl; intuition (discriminate || congruence).
  - simpl. unfold ActionResizeFormat_requires.
    destruct (isResize b) eqn:Hres; [| intuition discriminate].
    cbn [a_device a_dir]. unfold isGrow at 1. cbn [a_type a_dir].
    change (ACTION_TYPE_RESIZE =? ACTION_TYPE_RESIZE) with true.
    destruct (Nat.eqb_spec device (a_device b)) as [<- | Hdev];
      repeat case_bool_decide;
      destruct (isDevice b), (isGrow b), (isShrink b);
      destruct_dependsOn dependsOn;
      simpl; intuition (discriminate || congruence).
Qed.

Lemma partitions_on_same_disk_eq d1 d2 disk n1 n2 :
  dev_class d1 = PartitionDevice disk n1 ->
  dev_class d2 = PartitionDevice disk n2 ->
  partitions_on_same_disk d1 d2 = Some (n1, n2).
Proof.
  intros H1 H2. unfold partitions_on_same_disk.
  rewrite H1, H2, Nat.eqb_refl. reflexivity.
Qed.

(** C7.  Take two partitions of one disk, the first with the lower number,
    neither depending on the other.  Creating the second requires creating the
    first, creating the first does not require creating the second, and
    destroying the first requires destroying the second. *)
Theorem partition_number_order dependsOn m d1 d2 disk n1 n2 i1 i2 :
  dev_class (device_of m d1) = PartitionDevice disk n1 ->
  dev_class (device_of m d2) = PartitionDevice disk n2 ->
  n1 < n2 ->
  dependsOn m d1 d2 = false ->
  dependsOn m d2 d1 = false ->
  requires dependsOn m (ActionCreateDevice i2 d2) (ActionCreateDevice i1 d1)
  = true
  /\ requires dependsOn m (ActionCreateDevice i1 d1) (ActionCreateDevice i2 d2)
     = false
  /\ requires dependsOn m (ActionDestroyDevice i1 d1)
       (ActionDestroyDevice i2 d2)
     = true.
Proof.
  intros Hc1 Hc2 Hlt H12 H21. simpl.
  unfold ActionCreateDevice_requires, ActionDestroyDevice_requires. simpl.
  rewrite H12, H21. simpl.
  rewrite (partitions_on_same_disk_eq _ _ disk n1 n2 Hc1 Hc2).
  rewrite (partitions_on_same_disk_eq _ _ disk n2 n1 Hc2 Hc1).
  simpl. repeat split.
  - apply Z.gtb_lt. exact Hlt.
  - destruct (Z.gtb_spec n1 n2); [lia | reflexivity].
  - apply Z.ltb_lt. exact Hlt.
Qed.

(** Partitions 1 and 2 of the example disk. *)
Lemma partition_number_order_witness :
  requires example_dependsOn example_model
    (ActionCreateDevice 21 3) (ActionCreateDevice 20 2) = true
  /\ requires example_dependsOn example_model
       (ActionCreateDevice 20 2) (ActionCreateDevice 21 3) = false
  /\ requires example_dependsOn example_model
       (ActionDestroyDevice 20 2) (ActionDestroyDevice 21 3) = true.
Proof.
  apply (partition_number_order example_dependsOn example_model 2 3 1 1 2);
    (reflexivity || lia).
Defined.

(** ** [ActionCreateFormat] constructed without a format *)

(** C9.  [ActionCreateFormat(device)] succeeds from every store, draws the
    next id and leaves every device, and so [device.format], as it was.  Its
    [origFormat] is an object that was not in the store before and is in it
    afterwards, blank; nothing else in the store of formats changes.  The
    following [cancel] sets [device.format] to that object, still blank in the
    store, which is not what [device.format] held before construction if that
    was [None] or an object of the store. *)
Theorem create_format_without_format m device :
  exists id ref m1 m2,
    ActionCreateFormat_init device None m
    = (inr (ActionCreateFormat id device (Some ref)), m1)
    /\ id = next_id m
    /\ next_id m1 = S (next_id m)
    /\ devices m1 = devices m
    /\ (ref ∉ dom (formats m))
    /\ formats m !! ref = None
    /\ formats m1 = <[ref := blank_format]> (formats m)
    /\ formats m1 !! ref = Some blank_format
    /\ format_of m1 ref = blank_format
    /\ cancel (ActionCreateFormat id device (Some ref)) m1 = (inr tt, m2)
    /\ dev_format (device_of m2 device) = Some ref
    /\ formats m2 !! ref = Some blank_format
    /\ ((forall r, dev_format (device_of m device) = Some r ->
                   r ∈ dom (formats m)) ->
        dev_format (device_of m2 device) <> dev_format (device_of m device)).
Proof.
  unfold ActionCreateFormat_init, DeviceAction_init, bind. simpl.
  unfold getFormat_None, ret. simpl.
  eexists _, _, _, _. split; [reflexivity |].
  split; [reflexivity |]. split; [reflexivity |].
  split; [reflexivity |].
  split; [apply is_fresh |].
  split; [apply not_elem_of_dom, is_fresh |].
  split; [reflexivity |].
  split; [apply lookup_insert_eq |].
  split; [apply format_of_set_format_eq |].
  split; [reflexivity |].
  split; [by rewrite device_of_set_device_eq |].
  split; [apply lookup_insert_eq |].
  intros Hstore. rewrite device_of_set_device_eq. simpl.
  destruct (dev_format (device_of m device)) as [r |] eqn:Hr; [| done].
  intros [= Heq]. specialize (Hstore r eq_refl).
  rewrite <- Heq in Hstore. exact (is_fresh _ Hstore).
Qed.

(** At the example store: partition 2 holds format 10 before, during and
    until the cancel, and afterwards the blank object the constructor put in
    the store. *)
Lemma create_format_without_format_witness :
  exists ref m1 m2,
    ActionCreateFormat_init 2 None example_model
    = (inr (ActionCreateFormat 20 2 (Some ref)), m1)
    /\ formats example_model !! ref = None
    /\ formats m1 !! ref = Some blank_format
    /\ dev_format (device_of m1 2) = Some 10%nat
    /\ cancel (ActionCreateFormat 20 2 (Some ref)) m1 = (inr tt, m2)
    /\ dev_format (device_of m2 2) = Some ref
    /\ dev_format (device_of m2 2) <> Some 10%nat.
Proof.
  destruct (create_format_without_format example_model 2)
    as (id & ref & m1 & m2 & Hinit & -> & _ & Hdev & _ & Hold & _ & Hnew
        & _ & Hc & Hset & _ & Hne).
  exists ref, m1, m2.
  split; [exact Hinit |]. split; [exact Hold |]. split; [exact Hnew |].
  split; [| split; [exact Hc |]; split; [exact Hset |]].
  - unfold device_of. rewrite Hdev. reflexivity.
  - apply Hne. intros r [= <-]. vm_compute. reflexivity.
Defined.

(** ** The multipath member format *)

(** C10.  Whatever the arguments, [create] and [destroy] raise
    [MultipathMemberError], and the object is as it was. *)
Theorem multipath_member_create_destroy render_call args kwargs s :
  (exists msg s',
      Multipath.create render_call args kwargs s
      = (inl (MultipathMemberError msg), s')
      /\ Multipath.self_ s' = Multipath.self_ s)
  /\ (exists msg s',
         Multipath.destroy render_call args kwargs s
         = (inl (MultipathMemberError msg), s')
         /\ Multipath.self_ s' = Multipath.self_ s).
Proof.
  split; eexists _, _; split; reflexivity.
Qed.

(** ** [ActionCreateFormat.execute] after the format is written *)

Section ExecuteProperties.

Variable device_setup : nat -> M unit.
Variable partitionFlag_keys : list Z.
Variable PARTITION_LBA : Z.
Variable unsetFlag : nat -> Z -> M unit.
Variable setFlag : nat -> Z -> M unit.
Variable set_partedPartition_system : nat -> string -> M unit.
Variable commitToDisk : nat -> M unit.
Variable format_create : nat -> nat -> M unit.
Variable udev_settle : M unit.
Variable updateSysfsPath : nat -> M unit.
Variable udev_get_block_device : string -> M (option UdevInfo).
Variable device_str : Model -> nat -> string.

Let execute : Action -> M unit :=
  ActionCreateFormat_execute device_setup partitionFlag_keys PARTITION_LBA
    unsetFlag setFlag set_partedPartition_system commitToDisk format_create
    udev_settle updateSysfsPath udev_get_block_device device_str.

Let written : nat -> M unit :=
  create_on_disk device_setup partitionFlag_keys PARTITION_LBA
    unsetFlag setFlag set_partedPartition_system commitToDisk format_create
    udev_settle updateSysfsPath.

(** C8.  Suppose [execute] gets as far as the udev lookup: everything up to
    [updateSysfsPath] succeeds, leaving store [m1], the lookup answers [info]
    and leaves store [m2], and the device holds a format.  Then [execute]
    returns normally.  With no descriptor, the final store is [m2] for a
    tmpfs, and [m2] with one more error in the log for any other type.  With
    a descriptor, nothing is logged, the device links are the descriptor's,
    and the format's uuid is the descriptor's unless the type is btrfs, in
    which case the uuid is kept. *)
Theorem create_format_execute_lookup id device orig m m1 info m2 ref :
  written device m = (inr tt, m1) ->
  udev_get_block_device (dev_sysfsPath (device_of m1 device)) m1
  = (inr info, m2) ->
  dev_format (device_of m2 device) = Some ref ->
  exists m3,
    execute (ActionCreateFormat id device orig) m = (inr tt, m3)
    /\ (info = None ->
        (fmt_type (format_of m2 ref) = Some "tmpfs" -> m3 = m2)
        /\ (fmt_type (format_of m2 ref) <> Some "tmpfs" ->
            m3 = add_log "error"
                   ("udev lookup failed for device: " +:+ device_str m2 device)
                   m2))
    /\ (forall i, info = Some i ->
          log m3 = log m2
          /\ dev_deviceLinks (device_of m3 device) = udev_device_get_symlinks i
          /\ dev_format (device_of m3 device) = Some ref
          /\ (fmt_type (format_of m2 ref) <> Some "btrfs" ->
              fmt_uuid (format_of m3 ref) = udev_device_get_uuid i)
          /\ (fmt_type (format_of m2 ref) = Some "btrfs" ->
              fmt_uuid (format_of m3 ref) = fmt_uuid (format_of m2 ref))).
Proof.
  intros Hwritten Hlookup Href.
  unfold execute, ActionCreateFormat_execute. cbn [a_device].
  unfold bind at 1. fold written. rewrite Hwritten.
  unfold record_udev_info, bind at 1, get. simpl.
  unfold bind at 1. rewrite Hlookup.
  destruct info as [i |].
  - unfold current_format, bind, get. rewrite Href. simpl.
    case_bool_decide as Hbtrfs; simpl.
    + eexists. split; [reflexivity |].
      split; [discriminate |]. intros ? [= <-].
      rewrite device_of_set_device_eq. simpl.
      repeat split; try done.
    + eexists. split; [reflexivity |].
      split; [discriminate |]. intros ? [= <-].
      rewrite device_of_set_device_eq. simpl.
      rewrite format_of_set_device, format_of_set_format_eq.
      repeat split; try done.
  - unfold current_format, bind, get. rewrite Href. simpl.
    case_bool_decide as Htmpfs; simpl.
    + eexists. split; [reflexivity |]. split; [| discriminate].
      intros _. split; done.
    + eexists. split; [reflexivity |]. split; [| discriminate].
      intros _. split; done.
Qed.

End ExecuteProperties.

(** With the example collaborators.  Partition 3 holds an ext4.  When udev
    does not know the device, [execute] returns and logs one error; when it
    does, [execute] returns and records the uuid. *)
Lemma create_format_execute_lookup_witness :
  (exists m3,
      example_execute [] (ActionCreateFormat 20 3 None) example_model
      = (inr tt, m3)
      /\ log m3 = [("error", "udev lookup failed for device: /dev/sda2")])
  /\ (exists m3,
         example_execute ["/sys/block/sda/sda2"] (ActionCreateFormat 20 3 None)
           example_model
         = (inr tt, m3)
         /\ fmt_uuid (format_of m3 11) = udev_device_get_uuid example_info).
Proof.
  split.
  - destruct (create_format_execute_lookup example_noop [1; 2; 3] 2
                (fun _ => example_noop) (fun _ => example_noop)
                (fun _ => example_noop) example_noop (fun _ => example_noop)
                (ret tt) example_noop (example_udev []) example_device_str
                20 3 None example_model example_model None example_model 11)
      as (m3 & Hex & Hnone & _); try reflexivity.
    exists m3. split; [exact Hex |].
    destruct (Hnone eq_refl) as [_ Hlog].
    rewrite Hlog; [reflexivity | vm_compute; discriminate].
  - destruct (create_format_execute_lookup example_noop [1; 2; 3] 2
                (fun _ => example_noop) (fun _ => example_noop)
                (fun _ => example_noop) example_noop (fun _ => example_noop)
                (ret tt) example_noop (example_udev ["/sys/block/sda/sda2"])
                example_device_str
                20 3 None example_model example_model (Some example_info)
                example_model 11)
      as (m3 & Hex & _ & Hsome); try reflexivity.
    exists m3. split; [exact Hex |].
    destruct (Hsome _ eq_refl) as (_ & _ & _ & Huuid & _).
    apply Huuid. vm_compute. discriminate.
Defined.

(** * Further properties of the actions *)

(** ** Constructors *)

(** X1.  [ActionCreateDevice] can be constructed exactly for a device that does
    not exist.  For one that exists the constructor raises [ValueError] and
    the store is as it was; otherwise no device and no format changes. *)
Theorem create_device_init_exists m device :
  (dev_exists (device_of m device) = true ->
   exists msg,
     ActionCreateDevice_init device m = (inl (ValueError msg), m))
  /\ (dev_exists (device_of m device) = false ->
      exists id m1,
        ActionCreateDevice_init device m
        = (inr (ActionCreateDevice id device), m1)
        /\ devices m1 = devices m /\ formats m1 = formats m).
Proof.
  unfold ActionCreateDevice_init, bind, get, raise. simpl.
  split; intros ->; simpl; [eauto |].
  eexists _, _. split; [reflexivity |]. split; reflexivity.
Qed.

Lemma create_device_init_exists_witness :
  (exists msg,
     ActionCreateDevice_init 2 example_model
     = (inl (ValueError msg), example_model))
  /\ (exists id m1,
         ActionCreateDevice_init 3 example_model
         = (inr (ActionCreateDevice id 3), m1)).
Proof.
  split.
  - apply (create_device_init_exists example_model 2). reflexivity.
  - destruct (create_device_init_exists example_model 3) as [_ Hnew].
    destruct Hnew as (id & m1 & Heq & _); [reflexivity |]. eauto.
Defined.

(** X2.  [ActionResizeDevice] can be constructed exactly when the device is
    resizable and the new size differs from the current size and lies between
    the minimum and the maximum, both included.  The action then grows when
    the new size is above the current size and shrinks when it is below, and
    the device's target size is the new size. *)
Theorem resize_device_init_accepts m device newsize :
  let d := device_of m device in
  ((exists a m1, ActionResizeDevice_init device newsize m = (inr a, m1))
   <-> dev_resizable d = true
       /\ newsize <> dev_currentSize d
       /\ dev_minSize d <= newsize <= dev_maxSize d)
  /\ (forall a m1,
        ActionResizeDevice_init device newsize m = (inr a, m1) ->
        a_device a = device
        /\ isResize a = true /\ isDevice a = true
        /\ (isGrow a = true <-> dev_currentSize d < newsize)
        /\ (isShrink a = true <-> newsize < dev_currentSize d)
        /\ dev_targetSize (device_of m1 device) = newsize).
Proof.
  intros d. subst d.
  unfold ActionResizeDevice_init, bind, get, raise. simpl.
  destruct (dev_resizable (device_of m device)); simpl.
  2: { split; [| discriminate].
       split; [intros (a & m1 & [=]) | intros [[=] _]]. }
  destruct (Z.eqb_spec (dev_currentSize (device_of m device)) newsize).
  { split; [| discriminate].
    split; [intros (a & m1 & [=]) | intros (_ & Hne & _); congruence]. }
  destruct (Z.ltb_spec newsize (dev_minSize (device_of m device))).
  { split; [| discriminate].
    split; [intros (a & m1 & [=]) | intros (_ & _ & Hb); lia]. }
  destruct (Z.gtb_spec newsize (dev_maxSize (device_of m device))).
  { split; [| discriminate].
    split; [intros (a & m1 & [=]) | intros (_ & _ & Hb); lia]. }
  unfold DeviceAction_init, set_dev_targetSize, modify, ret. simpl.
  split.
  - split; [intros _ | eauto]. repeat split; (done || lia).
  - intros a m1 [= <- <-]. simpl.
    rewrite device_of_set_device_eq. simpl.
    unfold isGrow, isShrink. simpl.
    destruct (Z.gtb_spec newsize (dev_currentSize (device_of m device)));
      repeat split; try done; try lia; intros; try done; try lia.
Qed.

(** Partition 2 of the example store may shrink to its minimum size, 50. *)
Lemma resize_device_init_accepts_witness :
  exists a m1,
    ActionResizeDevice_init 2 50 example_model = (inr a, m1)
    /\ isShrink a = true.
Proof.
  destruct (resize_device_init_accepts example_model 2 50) as [Hiff Hpost].
  destruct (proj2 Hiff) as (a & m1 & Hinit).
  { repeat split; vm_compute; congruence. }
  exists a, m1. split; [exact Hinit |].
  destruct (Hpost a m1 Hinit) as (_ & _ & _ & _ & Hshrink & _).
  apply Hshrink. vm_compute. reflexivity.
Defined.

(** X3.  [ActionResizeFormat] raises [AttributeError] on a device without format
    and [ValueError] on a format that is not resizable, leaving the store as
    it was.  When it succeeds, the action grows when the new size is above
    the format's current size and shrinks when it is below, and no device
    changes. *)
Theorem resize_format_init_cases m device newsize :
  (dev_format (device_of m device) = None ->
   ActionResizeFormat_init device newsize m = (inl AttributeError, m))
  /\ (forall ref,
        dev_format (device_of m device) = Some ref ->
        fmt_resizable (format_of m ref) = false ->
        exists msg,
          ActionResizeFormat_init device newsize m
          = (inl (ValueError msg), m))
  /\ (forall a m1,
        ActionResizeFormat_init device newsize m = (inr a, m1) ->
        exists ref,
          dev_format (device_of m device) = Some ref
          /\ a_device a = device
          /\ isResize a = true /\ isFormat a = true
          /\ (isGrow a = true <-> fmt_currentSize (format_of m ref) < newsize)
          /\ (isShrink a = true
              <-> newsize < fmt_currentSize (format_of m ref))
          /\ devices m1 = devices m).
Proof.
  unfold ActionResizeFormat_init, bind, get, raise.
  split; [| split].
  - intros ->. reflexivity.
  - intros ref -> Hres. simpl. rewrite Hres. simpl. eauto.
  - intros a m1.
    destruct (dev_format (device_of m device)) as [ref |] eqn:Href;
      simpl; [| discriminate].
    destruct (negb _); [discriminate |].
    destruct (Z.eqb_spec (fmt_currentSize (format_of m ref)) newsize);
      [discriminate |].
    unfold DeviceAction_init, set_dev_format_targetSize, bind, get, modify, ret.
    simpl. unfold device_of at 1. simpl. fold (device_of m device).
    rewrite Href; simpl.
    intros [= <- <-]. exists ref. simpl.
    unfold isGrow, isShrink. simpl.
    destruct (Z.gtb_spec newsize (fmt_currentSize (format_of m ref)));
      repeat split; try done; try lia; intros; try done; try lia.
Qed.

(** The disk of the example store has no format; the ext4 of partition 2
    grows to 150. *)
Lemma resize_format_init_cases_witness :
  ActionResizeFormat_init 1 150 example_model
  = (inl AttributeError, example_model)
  /\ isGrow (ActionResizeFormat 20 2 RESIZE_GROW 100) = true.
Proof.
  destruct (resize_format_init_cases example_model 1 150) as (Hnone & _).
  split; [apply Hnone; reflexivity |].
  destruct (resize_format_init_cases example_model 2 150) as (_ & _ & Hpost).
  destruct (Hpost (ActionResizeFormat 20 2 RESIZE_GROW 100)
              (snd (ActionResizeFormat_init 2 150 example_model)) eq_refl)
    as (ref & Href & _ & _ & _ & Hgrow & _).
  apply Hgrow. vm_compute in Href. injection Href as <-.
  vm_compute. reflexivity.
Defined.

(** ** What construction and [cancel] leave alone *)

Lemma set_dev_targetSize_frame device v m dev' :
  dev' <> device ->
  device_of (snd (set_dev_targetSize device v m)) dev' = device_of m dev'
  /\ formats (snd (set_dev_targetSize device v m)) = formats m.
Proof.
  intros Hne. unfold set_dev_targetSize, modify. simpl.
  split; [| reflexivity]. apply device_of_set_device_ne. congruence.
Qed.

Lemma set_dev_format_frame device v m dev' :
  dev' <> device ->
  device_of (snd (set_dev_format device v m)) dev' = device_of m dev'
  /\ formats (snd (set_dev_format device v m)) = formats m.
Proof.
  intros Hne. unfold set_dev_format, modify. simpl.
  split; [| reflexivity]. apply device_of_set_device_ne. congruence.
Qed.

(** X4.  An action on [device] never writes to another device [dev'], whether its
    constructor succeeds or raises, and neither does its [cancel].  The
    device resize, the format create given a format, and the format destroy
    write to no format object.  The format resize writes to no device at all,
    and to no format object but the one the device holds. *)
Theorem actions_frame m device dev' :
  dev' <> device ->
  (forall newsize r m1,
      ActionResizeDevice_init device newsize m = (r, m1) ->
      device_of m1 dev' = device_of m dev' /\ formats m1 = formats m)
  /\ (forall fmt r m1,
         ActionCreateFormat_init device (Some fmt) m = (r, m1) ->
         device_of m1 dev' = device_of m dev' /\ formats m1 = formats m)
  /\ (forall r m1,
         ActionDestroyFormat_init device m = (r, m1) ->
         device_of m1 dev' = device_of m dev' /\ formats m1 = formats m)
  /\ (forall newsize r m1,
         ActionResizeFormat_init device newsize m = (r, m1) ->
         devices m1 = devices m
         /\ forall ref,
             dev_format (device_of m device) <> Some ref ->
             format_of m1 ref = format_of m ref)
  /\ (forall a r m1,
         a_device a = device ->
         cancel a m = (r, m1) ->
         device_of m1 dev' = device_of m dev').
Proof.
  intros Hne. split; [| split; [| split; [| split]]].
  - intros newsize r m1.
    unfold ActionResizeDevice_init, bind, get, raise.
    destruct (negb _); [by intros [= <- <-] |].
    destruct (_ =? _); [by intros [= <- <-] |].
    destruct (_ <? _); [by intros [= <- <-] |].
    destruct (newsize >? _); [by intros [= <- <-] |].
    unfold DeviceAction_init, set_dev_targetSize, modify, ret; simpl.
    intros [= <- <-]. split; [| reflexivity].
    rewrite device_of_set_device_ne by congruence. reflexivity.
  - intros fmt r m1.
    unfold ActionCreateFormat_init, DeviceAction_init, bind, get.
    unfold set_dev_format, modify, ret. simpl.
    intros [= <- <-]. split; [| reflexivity].
    rewrite device_of_set_device_ne by congruence. reflexivity.
  - intros r m1.
    unfold ActionDestroyFormat_init, DeviceAction_init, bind, get.
    unfold set_dev_format, modify, ret. simpl.
    intros [= <- <-]. split; [| reflexivity].
    rewrite device_of_set_device_ne by congruence. reflexivity.
  - intros newsize r m1.
    unfold ActionResizeFormat_init, bind, get, raise.
    destruct (dev_format (device_of m device)) as [ref0 |] eqn:Href;
      simpl; [| by intros [= <- <-]].
    destruct (negb _); [by intros [= <- <-] |].
    destruct (_ =? _); [by intros [= <- <-] |].
    unfold DeviceAction_init, set_dev_format_targetSize, bind, get, modify, ret.
    simpl. unfold device_of at 1. simpl. fold (device_of m device).
    rewrite Href; simpl.
    intros [= <- <-]. split; [reflexivity |].
    intros ref Hother.
    rewrite format_of_set_format_ne by congruence. reflexivity.
  - intros a r m1 Hdev.
    destruct a as [i d | i d | i d dr o | i d o | i d o | i d dr o];
      simpl in Hdev; subst d; simpl.
    + by intros [= <- <-].
    + by intros [= <- <-].
    + intros [= <- <-]. by apply set_dev_targetSize_frame.
    + intros [= <- <-]. by apply set_dev_format_frame.
    + intros [= <- <-]. by apply set_dev_format_frame.
    + unfold set_dev_format_targetSize, bind, get, modify.
      destruct (dev_format (device_of m device)); simpl;
        by intros [= <- <-].
Qed.

(** Destroying the format of partition 2 of the example store leaves
    partition 3 as it was. *)
Lemma actions_frame_witness :
  device_of (snd (ActionDestroyFormat_init 2 example_model)) 3
  = device_of example_model 3.
Proof.
  destruct (actions_frame example_model 2 3) as (_ & _ & Hdestroy & _);
    [lia |].
  destruct (Hdestroy (fst (ActionDestroyFormat_init 2 example_model))
              (snd (ActionDestroyFormat_init 2 example_model)) eq_refl)
    as [Hdev _].
  exact Hdev.
Defined.

(** ** Actions stacked on one device *)

(** X5.  A format create followed by a format destroy on the same device: the
    destroy snapshots the new format and leaves the device without format.
    Cancelling the destroy and then the create restores the format the device
    held at first; cancelling the create and then the destroy leaves the new
    format on the device. *)
Theorem create_destroy_format_cancel_order m device fmt :
  exists a1 m1 a2 m2,
    ActionCreateFormat_init device (Some fmt) m = (inr a1, m1)
    /\ ActionDestroyFormat_init device m1 = (inr a2, m2)
    /\ a_format m2 a2 = Some fmt
    /\ dev_format (device_of m2 device) = None
    /\ (exists m3 m4,
           cancel a2 m2 = (inr tt, m3)
           /\ cancel a1 m3 = (inr tt, m4)
           /\ dev_format (device_of m4 device)
              = dev_format (device_of m device))
    /\ (exists m3 m4,
           cancel a1 m2 = (inr tt, m3)
           /\ cancel a2 m3 = (inr tt, m4)
           /\ dev_format (device_of m4 device) = Some fmt).
Proof.
  unfold ActionCreateFormat_init, ActionDestroyFormat_init.
  unfold DeviceAction_init, bind, get, set_dev_format, modify, ret. simpl.
  eexists _, _, _, _. split; [reflexivity |]. split; [reflexivity |].
  unfold a_format, cancel, set_dev_format, modify, set_device, device_of.
  simpl. rewrite !lookup_total_insert_eq. simpl.
  split; [reflexivity |]. split; [reflexivity |].
  split.
  - eexists _, _. split; [reflexivity |]. split; [reflexivity |].
    simpl. rewrite !lookup_total_insert_eq. reflexivity.
  - eexists _, _. split; [reflexivity |]. split; [reflexivity |].
    simpl. rewrite !lookup_total_insert_eq. reflexivity.
Qed.

Lemma ActionResizeDevice_init_inv m device newsize a m1 :
  ActionResizeDevice_init device newsize m = (inr a, m1) ->
  newsize <> dev_currentSize (device_of m device)
  /\ device_of m1 device
     = with_dev_targetSize (device_of m device) newsize.
Proof.
  unfold ActionResizeDevice_init, bind, get, raise.
  destruct (negb _); [discriminate |].
  destruct (Z.eqb_spec (dev_currentSize (device_of m device)) newsize);
    [discriminate |].
  destruct (_ <? _); [discriminate |].
  destruct (newsize >? _); [discriminate |].
  unfold DeviceAction_init, set_dev_targetSize, modify, ret; simpl.
  intros [= _ <-]. rewrite device_of_set_device_eq. split; [congruence |].
  reflexivity.
Qed.

(** X6.  Two device resizes in a row, the first to a positive size: the second
    saves the first one's target, so cancelling the second puts the first
    target back.  The second is validated against the device's current size
    only, not against the pending target. *)
Theorem resize_device_twice_cancel m device n1 n2 a1 m1 a2 m2 :
  0 < n1 ->
  ActionResizeDevice_init device n1 m = (inr a1, m1) ->
  ActionResizeDevice_init device n2 m1 = (inr a2, m2) ->
  dev_targetSize (device_of m2 device) = n2
  /\ n2 <> dev_currentSize (device_of m device)
  /\ exists m3,
      cancel a2 m2 = (inr tt, m3)
      /\ dev_targetSize (device_of m3 device) = n1.
Proof.
  intros Hpos H1 H2.
  destruct (ActionResizeDevice_init_inv _ _ _ _ _ H1) as [_ Hd1].
  destruct (ActionResizeDevice_init_inv _ _ _ _ _ H2) as [Hne2 Hd2].
  split; [by rewrite Hd2 |]. split.
  - rewrite Hd1 in Hne2. exact Hne2.
  - destruct (ActionResizeDevice_init_cancel _ _ _ _ _ H2) as (m3 & Hc & Ht3).
    exists m3. split; [exact Hc |]. rewrite Ht3, Hd1. simpl.
    destruct (Z.gtb_spec n1 0); [reflexivity | lia].
Qed.

(** Partition 2 of the example store: grow to 150, then to 180, then cancel
    the second resize. *)
Lemma resize_device_twice_cancel_witness :
  exists m3,
    cancel (ActionResizeDevice 21 2 RESIZE_GROW 150)
      (snd (ActionResizeDevice_init 2 180
              (snd (ActionResizeDevice_init 2 150 example_model))))
    = (inr tt, m3)
    /\ dev_targetSize (device_of m3 2) = 150.
Proof.
  destruct (resize_device_twice_cancel example_model 2 150 180
              (ActionResizeDevice 20 2 RESIZE_GROW 100)
              (snd (ActionResizeDevice_init 2 150 example_model))
              (ActionResizeDevice 21 2 RESIZE_GROW 150)
              (snd (ActionResizeDevice_init 2 180
                      (snd (ActionResizeDevice_init 2 150 example_model)))))
    as (_ & _ & m3 & Hc & Ht); [lia | reflexivity | reflexivity |].
  exists m3. split; [exact Hc | exact Ht].
Defined.

(** ** More on [obsoletes] *)

Lemma py_and_true x y : x &&! y = inr true -> x = inr true /\ y = inr true.
Proof. destruct x as [e | [|]]; simpl; intros H; try discriminate; auto. Qed.

Lemma py_or_true x y :
  x ||! y = inr true -> x = inr true \/ (x = inr false /\ y = inr true).
Proof. destruct x as [e | [|]]; simpl; intros H; try discriminate; auto. Qed.

Ltac split_andb :=
  repeat match goal with
    | H : _ && _ = true |- _ => apply andb_prop in H; destruct H
    | H : inr _ = inr _ |- _ => injection H as H
    | H : _ &&! _ = inr true |- _ => apply py_and_true in H; destruct H
    | H : (_ =? _)%nat = true |- _ => apply Nat.eqb_eq in H
    | H : (_ <? _)%nat = true |- _ => apply Nat.ltb_lt in H
    | H : (_ <=? _)%nat = true |- _ => apply Nat.leb_le in H
    | H : (_ =? _)%Z = true |- _ => apply Z.eqb_eq in H
    end.

(** X7.  The classes that inherit [DeviceAction.obsoletes], which are the device
    create and both resizes, obsolete exactly the actions of their own class
    on the same device with a strictly lower id.  So a later resize replaces
    an earlier resize of the same object, and nothing else. *)
Theorem inherited_obsoletes m b id device :
  (obsoletes m (ActionCreateDevice id device) b = inr true
   <-> exists j, b = ActionCreateDevice j device /\ (j < id)%nat)
  /\ (forall dir o,
         obsoletes m (ActionResizeDevice id device dir o) b = inr true
         <-> exists j dir' o',
             b = ActionResizeDevice j device dir' o' /\ (j < id)%nat)
  /\ (forall dir o,
         obsoletes m (ActionResizeFormat id device dir o) b = inr true
         <-> exists j dir' o',
             b = ActionResizeFormat j device dir' o' /\ (j < id)%nat).
Proof.
  split; [| split]; intros; simpl; unfold DeviceAction_obsoletes; simpl.
  - split.
    + intros H. destruct b; simpl in H; split_andb; try discriminate.
      subst. eauto.
    + intros (j & -> & Hlt). simpl.
      rewrite Nat.eqb_refl. apply Nat.ltb_lt in Hlt. by rewrite Hlt.
  - split.
    + intros H. destruct b; simpl in H; split_andb; try discriminate.
      subst. eauto.
    + intros (j & dir' & o' & -> & Hlt). simpl.
      rewrite Nat.eqb_refl. apply Nat.ltb_lt in Hlt. by rewrite Hlt.
  - split.
    + intros H. destruct b; simpl in H; split_andb; try discriminate.
      subst. eauto.
    + intros (j & dir' & o' & -> & Hlt). simpl.
      rewrite Nat.eqb_refl. apply Nat.ltb_lt in Hlt. by rewrite Hlt.
Qed.

(** X8.  Between actions on different devices [obsoletes] returns [False], for
    every class, and without raising. *)
Theorem obsoletes_other_device m a b :
  a_device a <> a_device b -> obsoletes m a b = inr false.
Proof.
  intros Hne.
  destruct a; simpl;
    unfold DeviceAction_obsoletes, ActionDestroyDevice_obsoletes,
      ActionCreateFormat_obsoletes, ActionDestroyFormat_obsoletes;
    simpl in *.
  all: try (destruct (Nat.eqb_spec device (a_device b)); [done | reflexivity]).
  destruct (Nat.eqb_spec (a_device b) device); [congruence | reflexivity].
Qed.

Lemma obsoletes_other_device_witness :
  obsoletes example_model (ActionDestroyFormat 22 2 None)
    (ActionCreateFormat 21 3 None) = inr false.
Proof.
  apply (obsoletes_other_device example_model
           (ActionDestroyFormat 22 2 None) (ActionCreateFormat 21 3 None)).
  simpl. lia.
Defined.

(** X9.  Whatever [a] obsoletes acts on the same device and has no higher id; only
    a destroy can obsolete an action with its own id; and a format action
    obsoletes format actions only. *)
Theorem obsoletes_only_older m a b :
  obsoletes m a b = inr true ->
  a_device b = a_device a
  /\ (a_id b <= a_id a)%nat
  /\ (a_id b = a_id a -> isDestroy a = true)
  /\ (isFormat a = true -> isFormat b = true).
Proof.
  intros H.
  destruct a as [i d | i d | i d dr o | i d o | i d o | i d dr o];
    simpl in H.
  - unfold DeviceAction_obsoletes in H. simpl in *. split_andb.
    repeat split; try done; try lia.
  - unfold ActionDestroyDevice_obsoletes in H. simpl in *.
    destruct (Nat.eqb_spec (a_device b) d); [| discriminate].
    destruct ((a_id b <=? i)%nat && negb (dev_exists (device_of m d)))
      eqn:Hfirst.
    + split_andb. repeat split; try done.
    + destruct ((a_id b <? i)%nat && dev_exists (device_of m d)
                && negb (isDestroy b && isFormat b)) eqn:Hsecond;
        [| discriminate].
      split_andb. repeat split; try done; try lia.
  - unfold DeviceAction_obsoletes in H. simpl in *. split_andb.
    repeat split; try done; try lia.
  - unfold ActionCreateFormat_obsoletes in H.
    cbn [a_device a_id a_obj] in *. split_andb.
    repeat split; try done; try lia;
      try (intros _; destruct b; done).
  - unfold ActionDestroyFormat_obsoletes in H.
    cbn [a_device a_id a_obj] in *. split_andb.
    assert (Hle : (a_id b <= i)%nat).
    { match goal with
      | Hor : _ ||! _ = inr true |- _ => apply py_or_true in Hor;
          destruct Hor as [Hlt | [_ Heq]]
      end; split_andb; lia. }
    repeat split; try done;
      try (intros _; destruct b; done).
  - unfold DeviceAction_obsoletes in H. simpl in *. split_andb.
    repeat split; try done; try lia;
      try (intros _; destruct b; done).
Qed.

Lemma obsoletes_only_older_witness :
  a_device (ActionCreateDevice 21 3) = 3%nat
  /\ (21 <= 22)%nat.
Proof.
  destruct (obsoletes_only_older example_model (ActionDestroyDevice 22 3)
              (ActionCreateDevice 21 3) eq_refl) as (Hdev & Hid & _).
  split; [exact Hdev | exact Hid].
Defined.

(** ** More on [requires] *)

(** X10.  No action requires itself, as long as its device does not depend on
    itself. *)
Theorem requires_irreflexive dependsOn m a :
  dependsOn m (a_device a) (a_device a) = false ->
  requires dependsOn m a a = false.
Proof.
  intros Hself.
  destruct a as [i d | i d | i d dr o | i d o | i d o | i d dr o]; simpl in *.
  - unfold ActionCreateDevice_requires. simpl. rewrite Hself.
    unfold partitions_on_same_disk, lvs_in_same_vg.
    destruct (dev_class (device_of m d)) as [| disk n | vg s]; simpl;
      try reflexivity.
    + rewrite Nat.eqb_refl. simpl.
      destruct (Z.gtb_spec n n); [lia | reflexivity].
    + rewrite Nat.eqb_refl. by destruct s.
  - unfold ActionDestroyDevice_requires. simpl. rewrite Hself. simpl.
    unfold partitions_on_same_disk.
    destruct (dev_class (device_of m d)) as [| disk n | vg s]; simpl;
      try reflexivity.
    rewrite Nat.eqb_refl. simpl. apply Z.ltb_irrefl.
  - unfold ActionResizeDevice_requires. simpl. rewrite Hself.
    rewrite !andb_false_r. reflexivity.
  - unfold ActionCreateFormat_requires. simpl. by rewrite Hself.
  - unfold ActionDestroyFormat_requires. simpl. by rewrite Hself.
  - unfold ActionResizeFormat_requires. simpl. rewrite Hself.
    rewrite !andb_false_r. reflexivity.
Qed.

Lemma requires_irreflexive_witness :
  requires example_dependsOn example_model
    (ActionDestroyDevice 20 2) (ActionDestroyDevice 20 2) = false.
Proof.
  apply (requires_irreflexive example_dependsOn example_model
           (ActionDestroyDevice 20 2)).
  reflexivity.
Defined.

(** X11.  Between two devices that do not depend on each other, two device creates
    never require each other, and neither do two device destroys. *)
Theorem device_actions_not_mutual dependsOn m i1 d1 i2 d2 :
  dependsOn m d1 d2 = false ->
  dependsOn m d2 d1 = false ->
  (requires dependsOn m (ActionCreateDevice i1 d1) (ActionCreateDevice i2 d2)
   = true ->
   requires dependsOn m (ActionCreateDevice i2 d2) (ActionCreateDevice i1 d1)
   = false)
  /\ (requires dependsOn m (ActionDestroyDevice i1 d1)
        (ActionDestroyDevice i2 d2) = true ->
      requires dependsOn m (ActionDestroyDevice i2 d2)
        (ActionDestroyDevice i1 d1) = false).
Proof.
  intros H12 H21. simpl.
  unfold ActionCreateDevice_requires, ActionDestroyDevice_requires. simpl.
  rewrite H12, H21. simpl.
  unfold partitions_on_same_disk, lvs_in_same_vg.
  destruct (dev_class (device_of m d1)) as [| disk1 n1 | vg1 s1],
    (dev_class (device_of m d2)) as [| disk2 n2 | vg2 s2];
    simpl; try (split; discriminate).
  - rewrite (Nat.eqb_sym disk2 disk1).
    destruct (disk1 =? disk2)%nat; simpl; [| split; discriminate].
    split; intros H.
    + apply Z.gtb_lt in H. destruct (Z.gtb_spec n2 n1); [lia | reflexivity].
    + apply Z.ltb_lt in H. destruct (Z.ltb_spec n2 n1); [lia | reflexivity].
  - rewrite (Nat.eqb_sym vg2 vg1).
    destruct (vg1 =? vg2)%nat; simpl; [| split; discriminate].
    split; [| discriminate]. by destruct s1, s2.
Qed.

Lemma device_actions_not_mutual_witness :
  requires example_dependsOn example_model
    (ActionCreateDevice 20 2) (ActionCreateDevice 21 3) = false.
Proof.
  destruct (device_actions_not_mutual example_dependsOn example_model
              21 3 20 2) as [Hcreate _]; [reflexivity | reflexivity |].
  apply Hcreate. reflexivity.
Defined.

(** X12.  A device resize and a format resize of one device that does not depend
    on itself: the device resize requires the format resize exactly when both
    shrink, and the format resize requires the device resize exactly when
    both grow.  They never require each other. *)
Theorem resize_same_device_order dependsOn m device i j dir1 dir2 o1 o2 :
  dependsOn m device device = false ->
  let dev_resize := ActionResizeDevice i device dir1 o1 in
  let fmt_resize := ActionResizeFormat j device dir2 o2 in
  (requires dependsOn m dev_resize fmt_resize = true
   <-> dir1 = RESIZE_SHRINK /\ dir2 = RESIZE_SHRINK)
  /\ (requires dependsOn m fmt_resize dev_resize = true
      <-> dir1 = RESIZE_GROW /\ dir2 = RESIZE_GROW).
Proof.
  intros Hself. simpl.
  unfold ActionResizeDevice_requires, ActionResizeFormat_requires.
  unfold isShrink, isGrow. simpl.
  rewrite Hself, Nat.eqb_refl, !andb_false_r. simpl.
  unfold RESIZE_SHRINK, RESIZE_GROW.
  repeat case_bool_decide; simpl; split; split;
    try done; try (intros []; congruence);
    intros _; split; congruence.
Qed.

Lemma resize_same_device_order_witness :
  requires example_dependsOn example_model
    (ActionResizeDevice 20 2 RESIZE_SHRINK 100)
    (ActionResizeFormat 21 2 RESIZE_SHRINK 100) = true
  /\ requires example_dependsOn example_model
       (ActionResizeFormat 21 2 RESIZE_GROW 100)
       (ActionResizeDevice 20 2 RESIZE_GROW 100) = true.
Proof.
  split.
  - apply (resize_same_device_order example_dependsOn example_model 2 20 21
             RESIZE_SHRINK RESIZE_SHRINK 100 100); [reflexivity | done].
  - apply (resize_same_device_order example_dependsOn example_model 2 20 21
             RESIZE_GROW RESIZE_GROW 100 100); [reflexivity | done].
Defined.

(** X13.  A format create requires the create and every resize of its own device,
    never requires a device destroy, and requires a format action exactly
    when its device depends on that action's device. *)
Theorem create_format_requires_cases dependsOn m id device orig :
  let a := ActionCreateFormat id device orig in
  (forall j, requires dependsOn m a (ActionCreateDevice j device) = true)
  /\ (forall j dir o,
         requires dependsOn m a (ActionResizeDevice j device dir o) = true)
  /\ (forall j d, requires dependsOn m a (ActionDestroyDevice j d) = false)
  /\ (forall b,
         isFormat b = true ->
         requires dependsOn m a b = dependsOn m device (a_device b)).
Proof.
  simpl. unfold ActionCreateFormat_requires. simpl.
  split; [| split; [| split]]; intros; simpl.
  - rewrite Nat.eqb_refl. apply orb_true_r.
  - rewrite Nat.eqb_refl. apply orb_true_r.
  - rewrite andb_false_r. reflexivity.
  - destruct b; try discriminate; simpl;
      rewrite andb_true_r, orb_false_r; reflexivity.
Qed.

Lemma create_format_requires_cases_witness :
  requires example_dependsOn example_model (ActionCreateFormat 22 3 None)
    (ActionDestroyFormat 21 2 (Some 10%nat)) = false.
Proof.
  destruct (create_format_requires_cases example_dependsOn example_model
              22 3 None) as (_ & _ & _ & Hfmt).
  rewrite Hfmt; reflexivity.
Defined.

(** X14.  A destroy, of a device or of a format, waits for destroys only.  A
    device destroy always requires the destroy of its own format; the format
    destroy does not require the device destroy unless the device depends on
    itself. *)
Theorem destroy_requires_destroy dependsOn m a b :
  (isDestroy a = true ->
   requires dependsOn m a b = true -> isDestroy b = true)
  /\ (forall i j d o,
         requires dependsOn m (ActionDestroyDevice i d)
           (ActionDestroyFormat j d o) = true)
  /\ (forall i j d o,
         dependsOn m d d = false ->
         requires dependsOn m (ActionDestroyFormat j d o)
           (ActionDestroyDevice i d) = false).
Proof.
  split; [| split].
  - intros Ha.
    destruct a as [i d | i d | i d dr o | i d o | i d o | i d dr o];
      try discriminate; simpl.
    + unfold ActionDestroyDevice_requires.
      destruct (isDestroy b); [done |].
      rewrite andb_false_r. simpl. discriminate.
    + unfold ActionDestroyFormat_requires.
      destruct (isDestroy b); [done |].
      rewrite andb_false_r. discriminate.
  - intros. simpl. unfold ActionDestroyDevice_requires. simpl.
    rewrite Nat.eqb_refl, andb_true_r.
    by destruct (dependsOn m d d).
  - intros i j d o Hself. simpl. unfold ActionDestroyFormat_requires. simpl.
    by rewrite Hself.
Qed.

Lemma destroy_requires_destroy_witness :
  isDestroy (ActionDestroyDevice 21 3) = true.
Proof.
  destruct (destroy_requires_destroy example_dependsOn example_model
              (ActionDestroyDevice 20 2) (ActionDestroyDevice 21 3))
    as (Honly & _).
  apply Honly; reflexivity.
Defined.

(** X15.  Two logical volumes of one volume group, neither depending on the other:
    creating the one that is not confined to a single physical volume
    requires creating the one that is, and not the other way round. *)
Theorem lv_single_pv_order dependsOn m d1 d2 vg i1 i2 :
  dev_class (device_of m d1) = LVMLogicalVolumeDevice vg false ->
  dev_class (device_of m d2) = LVMLogicalVolumeDevice vg true ->
  dependsOn m d1 d2 = false ->
  dependsOn m d2 d1 = false ->
  requires dependsOn m (ActionCreateDevice i1 d1) (ActionCreateDevice i2 d2)
  = true
  /\ requires dependsOn m (ActionCreateDevice i2 d2) (ActionCreateDevice i1 d1)
     = false.
Proof.
  intros Hc1 Hc2 H12 H21. simpl.
  unfold ActionCreateDevice_requires. simpl.
  rewrite H12, H21. unfold partitions_on_same_disk, lvs_in_same_vg.
  rewrite Hc1, Hc2, Nat.eqb_refl. simpl. split; reflexivity.
Qed.

Lemma lv_single_pv_order_witness :
  requires example_dependsOn example_lvm_model
    (ActionCreateDevice 20 5) (ActionCreateDevice 21 6) = true
  /\ requires example_dependsOn example_lvm_model
       (ActionCreateDevice 21 6) (ActionCreateDevice 20 5) = false.
Proof.
  apply (lv_single_pv_order example_dependsOn example_lvm_model 5 6 4);
    reflexivity.
Defined.

(** ** Names of types, objects and directions *)

Lemma lower_ascii_idemp c : lower_ascii (lower_ascii c) = lower_ascii c.
Proof. destruct c as [[] [] [] [] [] [] [] []]; reflexivity. Qed.

Lemma lower_idemp s : lower (lower s) = lower s.
Proof.
  induction s as [| c s IH]; simpl; [reflexivity |].
  by rewrite lower_ascii_idemp, IH.
Qed.

Lemma first_key_elem items s k :
  first_key items s = Some k ->
  exists v, (k, v) ∈ items /\ lower v = lower s.
Proof.
  induction items as [| [k0 v0] rest IH]; simpl; [discriminate |].
  case_bool_decide as Hv.
  - intros [= <-]. exists v0. split; [left | exact Hv].
  - intros Hrest. destruct (IH Hrest) as (v & Hin & Hlow).
    exists v. split; [by right | exact Hlow].
Qed.

Lemma first_key_unique items s k v :
  NoDup (map (fun kv => lower (snd kv)) items) ->
  (k, v) ∈ items ->
  lower v = lower s ->
  first_key items s = Some k.
Proof.
  induction items as [| [k0 v0] rest IH]; simpl; intros Hnd Hin Hlow.
  - by apply elem_of_nil in Hin.
  - apply NoDup_cons in Hnd as [Hfresh Hnd].
    apply elem_of_cons in Hin as [[= -> ->] | Hin].
    + by rewrite bool_decide_eq_true_2.
    + case_bool_decide as Hv; [| by apply IH].
      exfalso. apply Hfresh. apply list_elem_of_fmap.
      exists (k, v). split; [simpl; congruence | exact Hin].
Qed.

Lemma first_key_Permutation items items' s :
  NoDup (map (fun kv => lower (snd kv)) items) ->
  items' ≡ₚ items ->
  first_key items' s = first_key items s.
Proof.
  intros Hnd Hperm.
  assert (Hnd' : NoDup (map (fun kv => lower (snd kv)) items')).
  { by rewrite Hperm. }
  destruct (first_key items s) as [k |] eqn:Hk.
  - destruct (first_key_elem _ _ _ Hk) as (v & Hin & Hlow).
    apply first_key_unique with v; try done. by rewrite Hperm.
  - destruct (first_key items' s) as [k |] eqn:Hk'; [| reflexivity].
    destruct (first_key_elem _ _ _ Hk') as (v & Hin & Hlow).
    rewrite Hperm in Hin.
    rewrite (first_key_unique items s k v) in Hk; done.
Qed.

(** X16.  The three look-ups by name do not depend on the order in which the
    dictionary yields its items, and they ignore case: a name and its
    lower-case form give the same answer. *)
Theorem from_string_order_and_case s :
  (forall items,
      items ≡ₚ action_strings ->
      first_key items s = first_key action_strings s)
  /\ (forall items,
         items ≡ₚ object_strings ->
         first_key items s = first_key object_strings s)
  /\ (forall items,
         items ≡ₚ resize_strings ->
         first_key items s = first_key resize_strings s)
  /\ action_type_from_string (Some (lower s))
     = action_type_from_string (Some s)
  /\ action_object_from_string (Some (lower s))
     = action_object_from_string (Some s)
  /\ resize_type_from_string (Some (lower s))
     = resize_type_from_string (Some s).
Proof.
  split; [| split; [| split]].
  - intros items. apply first_key_Permutation.
    apply (bool_decide_unpack _). vm_compute. exact I.
  - intros items. apply first_key_Permutation.
    apply (bool_decide_unpack _). vm_compute. exact I.
  - intros items. apply first_key_Permutation.
    apply (bool_decide_unpack _). vm_compute. exact I.
  - unfold action_type_from_string, action_object_from_string,
      resize_type_from_string, action_strings, object_strings,
      resize_strings, first_key.
    rewrite !lower_idemp. done.
Qed.

Lemma from_string_order_and_case_witness :
  first_key (reverse action_strings) "RESIZE" = Some ACTION_TYPE_RESIZE.
Proof.
  destruct (from_string_order_and_case "RESIZE") as [Horder _].
  rewrite Horder; [reflexivity |].
  apply reverse_Permutation.
Defined.

(** X17.  The name of an action's type leads back to the type, and the name of its
    object back to the object. *)
Theorem type_object_names_round_trip a :
  (exists s,
      typeString a = Some s
      /\ action_type_from_string (Some s) = Some (a_type a))
  /\ (exists s,
         objectString a = Some s
         /\ action_object_from_string (Some s) = Some (a_obj a)).
Proof.
  destruct a; split; eexists; split; reflexivity.
Qed.

(** X18.  The name of a resize's direction leads back to the direction, through
    [resize_type_from_string] and through [action_type_from_string] alike.
    An action that is not a resize has the empty name, which names nothing.
    A resize whose direction is neither of the two has no name: the look-up
    in [resize_strings] fails. *)
Theorem resize_name_round_trip a :
  (forall dir,
      isResize a = true ->
      a_dir a = Some dir ->
      dir = RESIZE_SHRINK \/ dir = RESIZE_GROW ->
      exists s,
        resizeString a = Some s
        /\ resize_type_from_string (Some s) = Some dir
        /\ action_type_from_string (Some s) = Some dir)
  /\ (isResize a = false ->
      resizeString a = Some ""
      /\ resize_type_from_string (Some "") = None)
  /\ (forall dir,
         isResize a = true ->
         a_dir a = Some dir ->
         dir <> RESIZE_SHRINK -> dir <> RESIZE_GROW ->
         resizeString a = None).
Proof.
  split; [| split].
  - intros dir Hres Hdir Hcases. unfold resizeString. rewrite Hres, Hdir.
    destruct Hcases as [-> | ->]; eexists; repeat split; reflexivity.
  - intros Hres. unfold resizeString. rewrite Hres. split; reflexivity.
  - intros dir Hres Hdir Hs Hg. unfold resizeString. rewrite Hres, Hdir.
    unfold dict_get, resize_strings, RESIZE_SHRINK, RESIZE_GROW in *.
    destruct (Z.eqb_spec 88 dir); [congruence |].
    destruct (Z.eqb_spec 89 dir); [congruence |]. reflexivity.
Qed.

Lemma resize_name_round_trip_witness :
  exists s,
    resizeString (ActionResizeFormat 20 2 RESIZE_GROW 100) = Some s
    /\ resize_type_from_string (Some s) = Some RESIZE_GROW.
Proof.
  destruct (resize_name_round_trip (ActionResizeFormat 20 2 RESIZE_GROW 100))
    as [Hname _].
  destruct (Hname RESIZE_GROW) as (s & Hs & Hback & _);
    [reflexivity | reflexivity | by right |].
  exists s. split; [exact Hs | exact Hback].
Defined.

(** X19.  [action_type_from_string] answers [None] for no string and for exactly
    the strings that, in lower case, are none of the four type names and of
    the two direction names.  Given the name of a direction it answers that
    direction's constant, which is not the constant of any type. *)
Theorem action_type_from_string_cases s :
  action_type_from_string None = None
  /\ (action_type_from_string (Some s) = None
      <-> lower s ∉ ["none"; "destroy"; "resize"; "create"; "shrink"; "grow"])
  /\ (forall k,
         resize_type_from_string (Some s) = Some k ->
         action_type_from_string (Some s) = Some k
         /\ k <> ACTION_TYPE_NONE /\ k <> ACTION_TYPE_DESTROY
         /\ k <> ACTION_TYPE_RESIZE /\ k <> ACTION_TYPE_CREATE).
Proof.
  split; [reflexivity |].
  unfold action_type_from_string, resize_type_from_string.
  unfold action_strings, resize_strings, first_key.
  change (lower "None") with "none". change (lower "Destroy") with "destroy".
  change (lower "Resize") with "resize". change (lower "Create") with "create".
  change (lower "Shrink") with "shrink". change (lower "Grow") with "grow".
  generalize (lower s). intros l.
  split.
  - rewrite !not_elem_of_cons.
    repeat case_bool_decide; split; try discriminate; intros Hx;
      try (destruct Hx as (? & ? & ? & ? & ? & ? & ?); congruence);
      try reflexivity;
      repeat split; try congruence; apply not_elem_of_nil.
  - intros k. repeat case_bool_decide; try discriminate; subst;
      try discriminate; intros [= <-]; repeat split; done.
Qed.

Lemma action_type_from_string_cases_witness :
  action_type_from_string (Some "Shrink") = Some RESIZE_SHRINK.
Proof.
  destruct (action_type_from_string_cases "Shrink") as (_ & _ & Hdir).
  apply Hdir. reflexivity.
Defined.

(** ** The [execute] methods and their collaborators *)

(** X20.  [ActionDestroyDevice.execute] passes on a failure of [device.destroy]
    and stops there.  Once the device is destroyed it returns normally
    whatever [removeFromCache] does: a failure of that call is swallowed, and
    what the call did to the store stays.  Without a parted device the call
    is not made. *)
Theorem destroy_device_execute_cases
  device_destroy partedDevice removeFromCache id device m :
  let execute :=
    ActionDestroyDevice_execute device_destroy partedDevice removeFromCache
      (ActionDestroyDevice id device) in
  (forall e m1,
      device_destroy device m = (inl e, m1) -> execute m = (inl e, m1))
  /\ (forall m1 cached m2,
         device_destroy device m = (inr tt, m1) ->
         partedDevice device m1 = (inr cached, m2) ->
         exists m3,
           execute m = (inr tt, m3)
           /\ (cached = false -> m3 = m2)
           /\ (cached = true -> m3 = snd (removeFromCache device m2))).
Proof.
  simpl. unfold ActionDestroyDevice_execute, bind. simpl. split.
  - intros e m1 ->. reflexivity.
  - intros m1 cached m2 -> ->. destruct cached.
    + unfold try_pass.
      destruct (removeFromCache device m2) as [[e | []] m3]; simpl;
        eexists; (split; [reflexivity |]); split; done.
    + eexists. split; [reflexivity |]. split; done.
Qed.

(** A cache invalidation that always fails does not make the destroy of
    partition 2 fail. *)
Lemma destroy_device_execute_cases_witness :
  ActionDestroyDevice_execute example_noop (fun _ => ret true)
    (fun _ => raise (BackendError "no such device in the cache"))
    (ActionDestroyDevice 20 2) example_model
  = (inr tt, example_model).
Proof.
  destruct (destroy_device_execute_cases example_noop (fun _ => ret true)
              (fun _ => raise (BackendError "no such device in the cache"))
              20 2 example_model) as [_ Hok].
  destruct (Hok example_model true example_model eq_refl eq_refl)
    as (m3 & Hex & _ & Hm3).
  rewrite Hex, (Hm3 eq_refl). reflexivity.
Defined.

(** X21.  [ActionDestroyFormat.execute] tears the device down only if it was not
    active when [execute] began: for a device that was active the outcome is
    the same whatever [teardown] would do.  When the action holds no format,
    [execute] raises [AttributeError] once the device is set up, and
    [format.destroy] is not reached. *)
Theorem destroy_format_execute_cases
  device_status device_setup_orig format_destroy udev_settle id device m :
  (forall orig teardown teardown' m1,
      device_status device m = (inr true, m1) ->
      ActionDestroyFormat_execute device_status device_setup_orig teardown
        format_destroy udev_settle (ActionDestroyFormat id device orig) m
      = ActionDestroyFormat_execute device_status device_setup_orig teardown'
          format_destroy udev_settle (ActionDestroyFormat id device orig) m)
  /\ (forall teardown status m1 m2,
         device_status device m = (inr status, m1) ->
         device_setup_orig device m1 = (inr tt, m2) ->
         ActionDestroyFormat_execute device_status device_setup_orig teardown
           format_destroy udev_settle (ActionDestroyFormat id device None) m
         = (inl AttributeError, m2)).
Proof.
  unfold ActionDestroyFormat_execute, bind, get. simpl. split.
  - intros orig teardown teardown' m1 ->. simpl. reflexivity.
  - intros teardown status m1 m2 -> ->. reflexivity.
Qed.

(** Partition 2 is active: a [teardown] that would fail is not called. *)
Lemma destroy_format_execute_cases_witness :
  ActionDestroyFormat_execute (fun _ => ret true) example_noop
    (fun _ => raise (BackendError "device is busy"))
    example_noop (ret tt) (ActionDestroyFormat 20 2 (Some 10%nat))
    example_model
  = (inr tt, example_model).
Proof.
  destruct (destroy_format_execute_cases (fun _ => ret true) example_noop
              example_noop (ret tt) 20 2 example_model) as [Hactive _].
  rewrite (Hactive (Some 10%nat)
             (fun _ => raise (BackendError "device is busy"))
             example_noop example_model eq_refl).
  reflexivity.
Defined.

(** X22.  The loop over the partition flags calls [unsetFlag] only with flags of
    [partitionFlag.keys()] that are neither the LBA flag nor, at the time of
    the call, the flag of the device's format: two versions of [unsetFlag]
    that agree on those calls give the same run. *)
Theorem unset_flags_keeps_lba_and_format_flag
  PARTITION_LBA unsetFlag unsetFlag' device flags :
  (forall flag m,
      flag ∈ flags ->
      flag <> PARTITION_LBA ->
      (forall ref,
          dev_format (device_of m device) = Some ref ->
          fmt_partedFlag (format_of m ref) <> Some flag) ->
      unsetFlag device flag m = unsetFlag' device flag m) ->
  forall m,
    unset_flags PARTITION_LBA unsetFlag device flags m
    = unset_flags PARTITION_LBA unsetFlag' device flags m.
Proof.
  induction flags as [| flag rest IH]; intros Hagree m; [reflexivity |].
  simpl. unfold bind, current_format, get, bind.
  destruct (dev_format (device_of m device)) as [ref |] eqn:Href; simpl;
    [| reflexivity].
  assert (IH' : forall m0,
             unset_flags PARTITION_LBA unsetFlag device rest m0
             = unset_flags PARTITION_LBA unsetFlag' device rest m0).
  { apply IH. intros flag' m' Hin. apply Hagree. by right. }
  destruct (Z.eqb_spec flag PARTITION_LBA); simpl; [apply IH' |].
  case_bool_decide as Hflag; simpl; [apply IH' |].
  rewrite (Hagree flag m); [| by left | done |].
  - destruct (unsetFlag' device flag m) as [[e | []] m1]; [reflexivity |].
    apply IH'.
  - intros ref' Href'. congruence.
Qed.

(** With flags 1, 2 and 3 and 2 the LBA flag, an [unsetFlag] that would fail
    on the LBA flag runs like one that never fails. *)
Lemma unset_flags_keeps_lba_and_format_flag_witness :
  unset_flags 2
    (fun _ flag => if flag =? 2 then raise (BackendError "lba") else ret tt)
    3 [1; 2; 3] example_model
  = (inr tt, example_model).
Proof.
  rewrite (unset_flags_keeps_lba_and_format_flag 2
             (fun _ flag =>
                if flag =? 2 then raise (BackendError "lba") else ret tt)
             (fun _ => example_noop) 3 [1; 2; 3]).
  - reflexivity.
  - intros flag m _ Hne _. destruct (Z.eqb_spec flag 2); [done | reflexivity].
Defined.

(** X23.  On a device that holds no format [ActionCreateFormat.execute] raises
    [AttributeError] before it calls anything: the store is as it was,
    whatever the collaborators are. *)
Theorem create_format_execute_no_format
  device_setup partitionFlag_keys PARTITION_LBA unsetFlag setFlag
  set_partedPartition_system commitToDisk format_create udev_settle
  updateSysfsPath udev_get_block_device device_str self m :
  dev_format (device_of m (a_device self)) = None ->
  ActionCreateFormat_execute device_setup partitionFlag_keys PARTITION_LBA
    unsetFlag setFlag set_partedPartition_system commitToDisk format_create
    udev_settle updateSysfsPath udev_get_block_device device_str self m
  = (inl AttributeError, m).
Proof.
  intros Hnone.
  unfold ActionCreateFormat_execute, create_on_disk, bind, current_format.
  unfold bind, get. rewrite Hnone. reflexivity.
Qed.

Lemma create_format_execute_no_format_witness :
  example_execute [] (ActionCreateFormat 20 1 None) example_model
  = (inl AttributeError, example_model).
Proof.
  apply (create_format_execute_no_format example_noop [1; 2; 3] 2
           (fun _ => example_noop) (fun _ => example_noop)
           (fun _ => example_noop) example_noop (fun _ => example_noop)
           (ret tt) example_noop (example_udev []) example_device_str
           (ActionCreateFormat 20 1 None) example_model).
  reflexivity.
Defined.

Lemma bind_ext {S A B} (c : St S A) (k k' : A -> St S B) s :
  (forall x s', c s = (inr x, s') -> k x s' = k' x s') ->
  bind c k s = bind c k' s.
Proof.
  intros Hk. unfold bind. destruct (c s) as [[e | x] s']; [reflexivity |].
  by apply Hk.
Qed.

(** X24.  For a device that is not a partition once it is set up, the steps of
    [ActionCreateFormat.execute] before the udev lookup touch neither the
    partition flags nor the partition table: the run is the same whatever
    [unsetFlag], [setFlag], the setter of [partedPartition.system] and
    [commitToDisk] would do. *)
Theorem create_on_disk_not_partition
  device_setup flags lba unsetFlag setFlag set_system commitToDisk
  flags' lba' unsetFlag' setFlag' set_system' commitToDisk'
  format_create udev_settle updateSysfsPath device m :
  (forall m1,
      device_setup device m = (inr tt, m1) ->
      forall disk number,
        dev_class (device_of m1 device) <> PartitionDevice disk number) ->
  create_on_disk device_setup flags lba unsetFlag setFlag set_system
    commitToDisk format_create udev_settle updateSysfsPath device m
  = create_on_disk device_setup flags' lba' unsetFlag' setFlag' set_system'
      commitToDisk' format_create udev_settle updateSysfsPath device m.
Proof.
  intros Hclass. unfold create_on_disk.
  apply bind_ext. intros ref0 m0 Hcur.
  assert (Hm0 : m0 = m).
  { revert Hcur. unfold current_format, bind, get.
    destruct (dev_format (device_of m device)); simpl; by intros [= _ <-]. }
  subst m0.
  apply bind_ext. intros [] m1 Hsetup.
  specialize (Hclass m1 Hsetup).
  apply bind_ext. intros m1' m1'' [= <- <-].
  destruct (dev_class (device_of m1 device)) as [| disk number | vg s];
    [reflexivity | by destruct (Hclass disk number) | reflexivity].
Qed.

(** Device 2 of the example store, replaced by a disk that holds format 10,
    is no partition. *)
Lemma create_on_disk_not_partition_witness :
  create_on_disk example_noop [1; 2; 3] 2
    (fun _ _ => raise (BackendError "no flags"))
    (fun _ _ => raise (BackendError "no flags"))
    (fun _ _ => raise (BackendError "no partition"))
    (fun _ => raise (BackendError "no table"))
    (fun _ => example_noop) (ret tt) example_noop 2
    (set_device 2 (with_dev_format example_disk (Some 10%nat)) example_model)
  = (inr tt,
     set_device 2 (with_dev_format example_disk (Some 10%nat)) example_model).
Proof.
  rewrite (create_on_disk_not_partition example_noop [1; 2; 3] 2
             (fun _ _ => raise (BackendError "no flags"))
             (fun _ _ => raise (BackendError "no flags"))
             (fun _ _ => raise (BackendError "no partition"))
             (fun _ => raise (BackendError "no table"))
             [] 0 (fun _ => example_noop) (fun _ => example_noop)
             (fun _ => example_noop) example_noop).
  - reflexivity.
  - intros m1 [= <-] disk number. vm_compute. discriminate.
Defined.
